(** * Excel analytics platform: the viewer, the chart generator, the upload and
      delete handlers and the row-level-security policies, embedded and verified.

    Sources embedded here:
    - [supabase/migrations/...sql]: tables and policies ([Module Rls]);
    - [ExcelDataViewer.tsx]: [loadFileData], [parseExcelFile], [saveAnalyticsData];
    - [ChartGenerator.tsx]: [generateChartData], [downloadChart];
    - [FileUpload.tsx]: [onDrop];
    - [FileList.tsx]: [handleDownload], [handleDelete];
    - [Dashboard.tsx]: [fetchFiles]. *)

From stdpp Require Import gmap strings list fin_maps pretty sorting.

(** ** JavaScript numbers, left abstract

    The handlers never do arithmetic on cell values: they only ask whether a
    number is NaN, whether it is zero, print it (as a property key) and parse
    strings into numbers. A [JsRuntime] supplies the doubles other than NaN
    together with these built-ins; every general statement below holds for
    all runtimes. *)

Inductive number (double : Type) : Type :=
  | NaN
  | Num (d : double).
Arguments NaN {double}.
Arguments Num {double} d.

Class JsRuntime := {
  double : Type;
  (** the literal [0] *)
  zero : double;
  (** [+0] or [-0] *)
  isZero : double → bool;
  zero_isZero : isZero zero = true;
  (** [Number.prototype.toString] *)
  numberToString : number double → string;
  (** [parseFloat] on a string *)
  parseFloatString : string → number double;
  (** [ToNumber] on a string, as [isNaN] applies it *)
  stringToNumber : string → number double;
}.

Section JsValues.
Context `{JsRuntime}.

(** The primitive values a spreadsheet cell, a header or a chart field holds. *)
Inductive value : Type :=
  | VUndefined
  | VNull
  | VBool (b : bool)
  | VNum (n : number double)
  | VStr (s : string).

(** ToBoolean. *)
Definition truthy (v : value) : bool :=
  match v with
  | VUndefined | VNull => false
  | VBool b => b
  | VNum NaN => false
  | VNum (Num d) => negb (isZero d)
  | VStr s => negb (String.eqb s "")
  end.

(** [a || b] *)
Definition or_else (a b : value) : value := if truthy a then a else b.

(** ToString, also the property key a value denotes in [obj[v]]. *)
Definition toString (v : value) : string :=
  match v with
  | VUndefined => "undefined"
  | VNull => "null"
  | VBool true => "true"
  | VBool false => "false"
  | VNum n => numberToString n
  | VStr s => s
  end.

(** The global [parseFloat]: its argument is converted to a string first. *)
Definition parseFloat (v : value) : number double := parseFloatString (toString v).

(** The global [isNaN]: its argument is converted to a number first
    ([undefined] gives NaN; [null] and booleans give 0 or 1). *)
Definition isNaN (v : value) : bool :=
  match v with
  | VUndefined => true
  | VNull | VBool _ => false
  | VNum NaN => true
  | VNum (Num _) => false
  | VStr s => match stringToNumber s with NaN => true | Num _ => false end
  end.

End JsValues.

(** A JavaScript array that may have holes ([None]): [sheet_to_json] with
    [header: 1] leaves a hole where a cell is empty. *)
Abbreviation jsarray := (list (option value)).

(** An object used as a record of cells: property name to value. *)
Abbreviation object := (gmap string value).

Section JsAccess.
Context `{JsRuntime}.

(** [a[i]]: a hole or an index past the end reads as [undefined]. *)
Definition index (a : jsarray) (i : nat) : value :=
  match a !! i with
  | Some (Some v) => v
  | _ => VUndefined
  end.

(** [obj[k]] *)
Definition get (obj : object) (k : string) : value :=
  match obj !! k with
  | Some v => v
  | None => VUndefined
  end.
End JsAccess.

(** [String.prototype.trim] over code units below 256: the white space and
    line terminators there are TAB, LF, VT, FF, CR, SP and NBSP. *)
Definition isWhiteSpace (c : Ascii.ascii) : bool :=
  let n := Ascii.nat_of_ascii c in
  (n =? 9) || (n =? 10) || (n =? 11) || (n =? 12) || (n =? 13) || (n =? 32) || (n =? 160).

Fixpoint trimStart (s : string) : string :=
  match s with
  | String c rest => if isWhiteSpace c then trimStart rest else s
  | EmptyString => EmptyString
  end.

Definition trimEnd (s : string) : string := String.rev (trimStart (String.rev s)).
Definition trim (s : string) : string := trimEnd (trimStart s).

(** ** ExcelDataViewer.tsx: the shape of a parsed sheet *)

Section Viewer.
Context `{JsRuntime}.

(** [interface SheetData { name; data; columns }]. The declared type of
    [columns] is [string[]], but the headers are whatever the cells of the
    first row hold, so they stay [value]s here. *)
Record SheetData := {
  name : string;
  data : list object;
  columns : list value;
}.

(** A workbook as [parseExcelFile] sees it: [SheetNames], and for every
    name what [XLSX.utils.sheet_to_json(workbook.Sheets[name], {header: 1})]
    returns, an array of rows, each an array of cells (a name without an
    entry reads as a missing worksheet, for which the library returns []). *)
Record Workbook := {
  SheetNames : list string;
  Sheets : gmap string (list jsarray);
}.

Definition sheet_to_json (workbook : Workbook) (sheetName : string) : list jsarray :=
  default [] (Sheets workbook !! sheetName).

(** [obj[key] = v] on an object that began as [{}], for [v] a string, a
    number or a boolean: the assignment makes or overwrites an own property,
    except under the key ["__proto__"]. That key reaches the accessor
    [Object.prototype.__proto__], whose setter does nothing when it is given
    a primitive: no own property is made and the object stays as it was. *)
Definition assign (obj : object) (key : string) (v : value) : object :=
  if decide (key = "__proto__") then obj else <[key := v]> obj.

(** [headers.forEach((header, index) => { obj[header] = row[index] || ''; })],
    started at [index]; [forEach] skips holes. The value assigned is never
    [null] or [undefined] (both are falsy and give ['']). *)
Fixpoint forEachHeader (headers : jsarray) (index0 : nat) (row : jsarray) (obj : object) : object :=
  match headers with
  | [] => obj
  | None :: rest => forEachHeader rest (S index0) row obj
  | Some header :: rest =>
      forEachHeader rest (S index0) row
        (assign obj (toString header) (or_else (index row index0) (VStr "")))
  end.

(** The callback of [rows.map]: one formatted row. *)
Definition formatRow (headers row : jsarray) : object :=
  forEachHeader headers 0 row ∅.

(** [h => h && h.toString().trim() !== ''] *)
Definition keepHeader (h : value) : bool :=
  if truthy h then negb (String.eqb (trim (toString h)) "") else false.

(** [headers.filter(...)]: holes are skipped, the result is dense. *)
Definition filterHeaders (headers : jsarray) : list value :=
  filter (λ h, keepHeader h = true) (omap id headers).

(** The body of [workbook.SheetNames.forEach], as the sheets it pushes. *)
Definition parseSheet (workbook : Workbook) (sheetName : string) : list SheetData :=
  let jsonData := sheet_to_json workbook sheetName in
  match jsonData with
  | [] => []
  | headers :: rows =>
      let formattedData := map (formatRow headers) rows in
      [ {| name := sheetName; data := formattedData; columns := filterHeaders headers |} ]
  end.

(** [sheetsData] at the end of the [forEach] loop of [parseExcelFile]. *)
Definition parseSheets (workbook : Workbook) : list SheetData :=
  flat_map (parseSheet workbook) (SheetNames workbook).
End Viewer.

(** ** The migration: tables under row-level security and their policies *)

(** UUIDs are opaque identifiers; [gen_random_uuid()] is modelled by a
    counter, so a generated id is never one already in use. *)
Definition uuid : Type := N.

Module Rls.
Inductive table := profiles | excel_files | analytics_data.
Inductive command := SELECT | INSERT | UPDATE | DELETE.
Inductive clause := USING | WITH_CHECK.

(** The two predicates the migration writes on these tables:
    [true] and [auth.uid() = user_id]. *)
Inductive expr := ETrue | EUidIsUserId.

Record policy := {
  policy_name : string;
  on_table : table;
  for_command : command;
  policy_clause : clause;
  predicate : expr;
}.

(** Lines 47-93 of the migration, in order. *)
Definition policies : list policy := [
  {| policy_name := "Users can view all profiles"; on_table := profiles;
     for_command := SELECT; policy_clause := USING; predicate := ETrue |};
  {| policy_name := "Users can update their own profile"; on_table := profiles;
     for_command := UPDATE; policy_clause := USING; predicate := EUidIsUserId |};
  {| policy_name := "Users can insert their own profile"; on_table := profiles;
     for_command := INSERT; policy_clause := WITH_CHECK; predicate := EUidIsUserId |};
  {| policy_name := "Users can view their own files"; on_table := excel_files;
     for_command := SELECT; policy_clause := USING; predicate := EUidIsUserId |};
  {| policy_name := "Users can upload their own files"; on_table := excel_files;
     for_command := INSERT; policy_clause := WITH_CHECK; predicate := EUidIsUserId |};
  {| policy_name := "Users can update their own files"; on_table := excel_files;
     for_command := UPDATE; policy_clause := USING; predicate := EUidIsUserId |};
  {| policy_name := "Users can delete their own files"; on_table := excel_files;
     for_command := DELETE; policy_clause := USING; predicate := EUidIsUserId |};
  {| policy_name := "Users can view their own analytics"; on_table := analytics_data;
     for_command := SELECT; policy_clause := USING; predicate := EUidIsUserId |};
  {| policy_name := "Users can create their own analytics"; on_table := analytics_data;
     for_command := INSERT; policy_clause := WITH_CHECK; predicate := EUidIsUserId |}
].

(** A predicate evaluated for a caller ([auth.uid()], NULL when nobody is
    signed in) on a row with the given [user_id]; a NULL comparison does
    not pass. *)
Definition eval (e : expr) (auth_uid : option uuid) (user_id : uuid) : bool :=
  match e with
  | ETrue => true
  | EUidIsUserId =>
      match auth_uid with
      | Some uid => N.eqb uid user_id
      | None => false
      end
  end.

Definition permits (p : policy) (auth_uid : option uuid) (user_id : uuid) : bool :=
  eval (predicate p) auth_uid user_id.

Definition table_eqb (a b : table) : bool :=
  match a, b with
  | profiles, profiles | excel_files, excel_files | analytics_data, analytics_data => true
  | _, _ => false
  end.

Definition command_eqb (a b : command) : bool :=
  match a, b with
  | SELECT, SELECT | INSERT, INSERT | UPDATE, UPDATE | DELETE, DELETE => true
  | _, _ => false
  end.

Definition applies (p : policy) (t : table) (c : command) : bool :=
  table_eqb (on_table p) t && command_eqb (for_command p) c.

(** Row-level security is enabled on all three tables (lines 12, 32, 45):
    a command on a row is let through when some policy for that table and
    command passes, and refused when there is none. *)
Definition allowed (t : table) (c : command) (auth_uid : option uuid) (user_id : uuid) : bool :=
  existsb (λ p, applies p t c && permits p auth_uid user_id) policies.
End Rls.

(** ** The managed backend: a storage bucket and two tables *)

Section Backend.
Context `{JsRuntime}.

(** A row of [public.excel_files] (migration lines 18-29). *)
Record FileRow := {
  f_id : uuid;
  f_user_id : uuid;
  filename : string;
  original_name : string;
  file_size : N;
  file_path : string;
  upload_date : N;
  status : string;
  sheet_count : Z;
  row_count : Z;
}.

(** The object [onDrop] hands to [.insert]. *)
Record NewFile := {
  nf_user_id : uuid;
  nf_filename : string;
  nf_original_name : string;
  nf_file_size : N;
  nf_file_path : string;
  nf_status : string;
}.

(** The JSON stored in [analytics_data.data]. *)
Record AnalyticsData := {
  ad_columns : list value;
  rowCount : nat;
  sampleData : list object;
}.

(** The object [saveAnalyticsData] hands to [.upsert]. It has no [id]
    property ([up_id = None]); the field is there because an upsert
    resolves conflicts on the primary key. *)
Record AnalyticsPayload := {
  up_id : option uuid;
  up_user_id : uuid;
  up_file_id : uuid;
  up_sheet_name : string;
  up_data : AnalyticsData;
}.

(** A row of [public.analytics_data] (migration lines 35-42): [id] is the
    only key; nothing makes ([file_id], [sheet_name]) unique. *)
Record AnalyticsRow := {
  a_id : uuid;
  a_file_id : uuid;
  a_user_id : uuid;
  a_sheet_name : string;
  a_data : AnalyticsData;
  a_created_at : N;
}.

Record Backend := {
  (** bucket [excel-files]: path to content *)
  objects : gmap string string;
  excel_files : list FileRow;
  analytics_data : list AnalyticsRow;
  (** the next value of [gen_random_uuid()] *)
  next_uuid : uuid;
  (** the database's [now()] *)
  db_now : N;
}.

Record Error := { message : string }.

Inductive Call :=
  | StorageUpload (path content : string)
  | StorageDownload (path : string)
  | StorageRemove (paths : list string)
  | InsertExcelFile (row : NewFile)
  | SelectExcelFiles (user_id : uuid)
  | DeleteExcelFile (id user_id : uuid)
  | UpsertAnalytics (payload : AnalyticsPayload).

Inductive Data :=
  | NoData
  | Blob (content : string)
  | Rows (rows : list FileRow).

(** What a settled call resolves to: [{ data, error }]. *)
Record Response := { r_data : Data; r_error : option Error }.

Definition ok (d : Data) : Response := {| r_data := d; r_error := None |}.
Definition failed (msg : string) : Response :=
  {| r_data := NoData; r_error := Some {| message := msg |} |}.

Definition rls_violation : string := "new row violates row-level security policy".

Definition newer_first (a b : FileRow) : Prop := (upload_date b ≤ upload_date a)%N.

#[global] Instance newer_first_dec (a b : FileRow) : Decision (newer_first a b).
Proof. unfold newer_first. apply _. Defined.

Definition insert_file (auth_uid : option uuid) (row : NewFile) (b : Backend) : Response * Backend :=
  if Rls.allowed Rls.excel_files Rls.INSERT auth_uid (nf_user_id row) then
    (ok NoData,
     {| objects := objects b;
        excel_files := excel_files b ++
          [ {| f_id := next_uuid b; f_user_id := nf_user_id row;
               filename := nf_filename row; original_name := nf_original_name row;
               file_size := nf_file_size row; file_path := nf_file_path row;
               upload_date := db_now b; status := nf_status row;
               sheet_count := 0; row_count := 0 |} ];
        analytics_data := analytics_data b;
        next_uuid := N.succ (next_uuid b);
        db_now := db_now b |})
  else (failed rls_violation, b).

(** [.select('*').eq('user_id', uid).order('upload_date', { ascending: false })] *)
Definition select_files (auth_uid : option uuid) (uid : uuid) (b : Backend) : Response * Backend :=
  (ok (Rows (merge_sort newer_first
        (filter (λ r, Rls.allowed Rls.excel_files Rls.SELECT auth_uid (f_user_id r) = true
                      ∧ f_user_id r = uid) (excel_files b)))), b).

Definition deleted_by (auth_uid : option uuid) (id uid : uuid) (r : FileRow) : bool :=
  Rls.allowed Rls.excel_files Rls.DELETE auth_uid (f_user_id r)
  && N.eqb (f_id r) id && N.eqb (f_user_id r) uid.

(** [.delete().eq('id', id).eq('user_id', uid)]; the analytics rows of a
    deleted file go with it ([ON DELETE CASCADE]). *)
Definition delete_file (auth_uid : option uuid) (id uid : uuid) (b : Backend) : Response * Backend :=
  let gone := filter (λ r, deleted_by auth_uid id uid r = true) (excel_files b) in
  (ok NoData,
   {| objects := objects b;
      excel_files := filter (λ r, deleted_by auth_uid id uid r = false) (excel_files b);
      analytics_data :=
        filter (λ a, existsb (λ r, N.eqb (f_id r) (a_file_id a)) gone = false) (analytics_data b);
      next_uuid := next_uuid b;
      db_now := db_now b |}).

Definition add_analytics (id : uuid) (p : AnalyticsPayload) (b : Backend) : Backend :=
  {| objects := objects b;
     excel_files := excel_files b;
     analytics_data := analytics_data b ++
       [ {| a_id := id; a_file_id := up_file_id p; a_user_id := up_user_id p;
            a_sheet_name := up_sheet_name p; a_data := up_data p;
            a_created_at := db_now b |} ];
     next_uuid := N.succ (N.max id (next_uuid b));
     db_now := db_now b |}.

(** [.upsert(payload)] with no [onConflict] option: an INSERT whose
    conflict target is the primary key [id]. A payload without [id] takes
    the column default, a fresh uuid, and so is always inserted. A payload
    whose [id] is taken would go the UPDATE way, which no policy on
    [analytics_data] allows. *)
Definition upsert_analytics (auth_uid : option uuid) (p : AnalyticsPayload) (b : Backend)
  : Response * Backend :=
  if negb (Rls.allowed Rls.analytics_data Rls.INSERT auth_uid (up_user_id p)) then
    (failed rls_violation, b)
  else if negb (existsb (λ r, N.eqb (f_id r) (up_file_id p)) (excel_files b)) then
    (failed "insert or update violates foreign key constraint", b)
  else
    match up_id p with
    | None => (ok NoData, add_analytics (next_uuid b) p b)
    | Some id =>
        if existsb (λ a, N.eqb (a_id a) id) (analytics_data b) then
          if Rls.allowed Rls.analytics_data Rls.UPDATE auth_uid (up_user_id p) then
            (ok NoData,
             {| objects := objects b;
                excel_files := excel_files b;
                analytics_data :=
                  map (λ a, if N.eqb (a_id a) id then
                              {| a_id := id; a_file_id := up_file_id p;
                                 a_user_id := up_user_id p;
                                 a_sheet_name := up_sheet_name p; a_data := up_data p;
                                 a_created_at := a_created_at a |}
                            else a) (analytics_data b);
                next_uuid := next_uuid b;
                db_now := db_now b |})
          else (failed rls_violation, b)
        else (ok NoData, add_analytics id p b)
    end.

(** The storage calls; the bucket's own policies (migration lines 95-114)
    are not modelled. [upload] does not overwrite. *)
Definition storage_upload (path content : string) (b : Backend) : Response * Backend :=
  match objects b !! path with
  | Some _ => (failed "The resource already exists", b)
  | None =>
      (ok NoData,
       {| objects := <[path := content]> (objects b);
          excel_files := excel_files b;
          analytics_data := analytics_data b;
          next_uuid := next_uuid b;
          db_now := db_now b |})
  end.

Definition storage_download (path : string) (b : Backend) : Response * Backend :=
  match objects b !! path with
  | Some content => (ok (Blob content), b)
  | None => (failed "Object not found", b)
  end.

Definition storage_remove (paths : list string) (b : Backend) : Response * Backend :=
  (ok NoData,
   {| objects := foldr delete (objects b) paths;
      excel_files := excel_files b;
      analytics_data := analytics_data b;
      next_uuid := next_uuid b;
      db_now := db_now b |}).

(** A call carried out by the backend for the signed-in caller. *)
Definition perform (auth_uid : option uuid) (c : Call) (b : Backend) : Response * Backend :=
  match c with
  | StorageUpload path content => storage_upload path content b
  | StorageDownload path => storage_download path b
  | StorageRemove paths => storage_remove paths b
  | InsertExcelFile row => insert_file auth_uid row b
  | SelectExcelFiles uid => select_files auth_uid uid b
  | DeleteExcelFile id uid => delete_file auth_uid id uid b
  | UpsertAnalytics p => upsert_analytics auth_uid p b
  end.
End Backend.

(** ** Handlers as programs: backend calls, state setters and toasts

    A handler is run against a [World]: the backend, and what the
    environment does to each backend call in turn ([faults]; a call with no
    entry left succeeds). It yields how it completed, the world after it and
    the events it caused, in order. *)

Section Effects.
Context `{JsRuntime}.

(** How the environment treats one call: it reaches the backend, which
    carries it out; or it resolves to [{ error }]; or its promise rejects. *)
Inductive Outcome :=
  | Succeeds
  | ErrorResult (e : Error)
  | Rejects (e : Error).

Record World := {
  backend : Backend;
  faults : list Outcome;
}.

Record Toast := {
  title : string;
  description : string;
  variant : option string;
}.

Inductive Event :=
  | Issue (c : Call)
  | Settle (c : Call) (failure : option Error)
  | ToastShown (t : Toast)
  | ConsoleError (msg : string) (e : Error)
  | SetUploading (b : bool)
  | SetUploadProgress (n : N)
  | SetDeletingId (id : option uuid)
  | SetLoading (b : bool)
  | SetFileData (arrayBuffer : string)
  | SetSheets (sheets : list SheetData)
  | SetFiles (rows : list FileRow)
  | SetTotalFiles (n : nat)
  | SetTotalSize (n : N)
  | OnUploadComplete
  | OnFileDeleted
  | SaveLink (download content : string).

Inductive Completion (A : Type) :=
  | Normal (a : A)
  | Thrown (e : Error).
#[global] Arguments Normal {A} a.
#[global] Arguments Thrown {A} e.

Definition M (A : Type) : Type := World → Completion A * World * list Event.

#[global] Instance M_ret : MRet M := λ A a w, (Normal a, w, []).

#[global] Instance M_bind : MBind M := λ A B f m w,
  match m w with
  | (Normal a, w', t) => let '(r, w'', t') := f a w' in (r, w'', t ++ t')
  | (Thrown e, w', t) => (Thrown e, w', t)
  end.

Definition emit (ev : Event) : M unit := λ w, (Normal (), w, [ev]).
Definition throw {A} (e : Error) : M A := λ w, (Thrown e, w, []).
Definition toast (t : Toast) : M unit := emit (ToastShown t).

(** [try { body } catch (error) { handler }] *)
Definition try_catch {A} (body : M A) (handler : Error → M A) : M A := λ w,
  match body w with
  | (Normal a, w', t) => (Normal a, w', t)
  | (Thrown e, w', t) => let '(r, w'', t') := handler e w' in (r, w'', t ++ t')
  end.

(** [try { body } finally { fin }] *)
Definition finally {A} (body : M A) (fin : M unit) : M A := λ w,
  let '(r, w', t) := body w in
  match fin w' with
  | (Normal _, w'', t') => (r, w'', t ++ t')
  | (Thrown e, w'', t') => (Thrown e, w'', t ++ t')
  end.

(** A request that has been sent and not yet awaited. *)
Record Pending := {
  p_call : Call;
  p_result : Response + Error;
}.

(** What becomes of a request: the response it resolves to or the error it
    rejects with, and the world once the backend has dealt with it. *)
Definition exchange (auth_uid : option uuid) (c : Call) (w : World) : (Response + Error) * World :=
  match faults w with
  | [] | Succeeds :: _ =>
      let '(r, b) := perform auth_uid c (backend w) in
      (inl r, {| backend := b; faults := tail (faults w) |})
  | ErrorResult e :: rest =>
      (inl {| r_data := NoData; r_error := Some e |}, {| backend := backend w; faults := rest |})
  | Rejects e :: rest =>
      (inr e, {| backend := backend w; faults := rest |})
  end.

(** The error a request ends with, if any. *)
Definition failure (res : Response + Error) : option Error :=
  match res with
  | inl r => r_error r
  | inr e => Some e
  end.

(** Sending a request: the backend's state changes here. *)
Definition issue (auth_uid : option uuid) (c : Call) : M Pending := λ w,
  let '(res, w') := exchange auth_uid c w in
  (Normal {| p_call := c; p_result := res |}, w', [Issue c]).

(** Waiting for a request: a rejection is thrown at the [await]. *)
Definition settle (p : Pending) : M Response := λ w,
  (match p_result p with inl r => Normal r | inr e => Thrown e end,
   w, [Settle (p_call p) (failure (p_result p))]).

(** [await supabase....] *)
Definition await (auth_uid : option uuid) (c : Call) : M Response :=
  p ← issue auth_uid c; settle p.

(** [if (error) throw error;] *)
Definition throw_if_error (r : Response) : M unit :=
  match r_error r with
  | Some e => throw e
  | None => mret ()
  end.

Definition destructive : option string := Some "destructive".

(** *** FileUpload.tsx *)

Record User := { user_id : uuid }.

Record File := {
  file_name : string;
  file_type : string;
  size : N;
  content : string;
}.

Definition validTypes : list string := [
  "application/vnd.openxmlformats-officedocument.spreadsheetml.sheet";
  "application/vnd.ms-excel";
  "text/csv"
].

Definition includes (l : list string) (s : string) : bool := existsb (String.eqb s) l.

(** [onDrop], with [Date.now()] as [now]. *)
Definition onDrop (user : option User) (now : N) (acceptedFiles : list File) : M unit :=
  match user with
  | None => mret ()
  | Some user =>
      match acceptedFiles with
      | [] => mret ()
      | file :: _ =>
          if negb (includes validTypes (file_type file)) then
            toast {| title := "Invalid file type";
                     description := "Please upload an Excel (.xlsx, .xls) or CSV file.";
                     variant := destructive |}
          else
            emit (SetUploading true);;
            emit (SetUploadProgress 0);;
            finally
              (try_catch
                 (let fileName := pretty now +:+ "-" +:+ file_name file in
                  let filePath := pretty (user_id user) +:+ "/" +:+ fileName in
                  r ← await (Some (user_id user)) (StorageUpload filePath (content file));
                  throw_if_error r;;
                  emit (SetUploadProgress 50);;
                  r ← await (Some (user_id user))
                        (InsertExcelFile
                           {| nf_user_id := user_id user;
                              nf_filename := fileName;
                              nf_original_name := file_name file;
                              nf_file_size := size file;
                              nf_file_path := filePath;
                              nf_status := "uploaded" |});
                  throw_if_error r;;
                  emit (SetUploadProgress 100);;
                  toast {| title := "Success";
                           description := "File uploaded successfully!";
                           variant := None |};;
                  emit OnUploadComplete)
                 (λ error,
                    toast {| title := "Upload failed";
                             description := message error;
                             variant := destructive |}))
              (emit (SetUploading false);; emit (SetUploadProgress 0))
      end
  end.

(** *** FileList.tsx *)

Definition handleDownload (user : option User) (file : FileRow) : M unit :=
  try_catch
    (r ← await (user_id <$> user) (StorageDownload (file_path file));
     throw_if_error r;;
     match r_data r with
     | Blob data0 =>
         emit (SaveLink (original_name file) data0);;
         toast {| title := "Success";
                  description := "File downloaded successfully!";
                  variant := None |}
     | _ => throw {| message := "Failed to execute 'createObjectURL' on 'URL'" |}
     end)
    (λ error,
       toast {| title := "Download failed";
                description := message error;
                variant := destructive |}).

Definition handleDelete (user : option User) (file : FileRow) : M unit :=
  match user with
  | None => mret ()
  | Some user =>
      emit (SetDeletingId (Some (f_id file)));;
      finally
        (try_catch
           (r ← await (Some (user_id user)) (StorageRemove [file_path file]);
            throw_if_error r;;
            r ← await (Some (user_id user)) (DeleteExcelFile (f_id file) (user_id user));
            throw_if_error r;;
            toast {| title := "Success";
                     description := "File deleted successfully!";
                     variant := None |};;
            emit OnFileDeleted)
           (λ error,
              toast {| title := "Delete failed";
                       description := message error;
                       variant := destructive |}))
        (emit (SetDeletingId None))
  end.
End Effects.

(** *** ExcelDataViewer.tsx and Dashboard.tsx *)

Section ViewerHandlers.
Context `{JsRuntime}.

(** [XLSX.read(arrayBuffer, { type: 'array' })]; [None] when it throws. *)
Variable XLSX_read : string → option Workbook.

(** The object built for one sheet inside [sheetsData.map]. *)
Definition analyticsPayload (user : User) (fileId : uuid) (sheet : SheetData) : AnalyticsPayload :=
  {| up_id := None;
     up_user_id := user_id user;
     up_file_id := fileId;
     up_sheet_name := name sheet;
     up_data := {| ad_columns := columns sheet;
                   rowCount := length (data sheet);
                   sampleData := take 5 (data sheet) |} |}.

(** [saveAnalyticsData]: one request per sheet is started, then all are
    awaited together ([Promise.all]). The responses are not looked at; a
    rejection is logged to the console. *)
Definition saveAnalyticsData (user : option User) (fileId : uuid) (sheetsData : list SheetData)
  : M unit :=
  match user with
  | None => mret ()
  | Some user =>
      try_catch
        (promises ← mapM (λ sheet,
             issue (Some (user_id user))
               (UpsertAnalytics (analyticsPayload user fileId sheet))) sheetsData;
         mapM settle promises;;
         mret ())
        (λ error, emit (ConsoleError "Failed to save analytics data:" error))
  end.

(** [parseExcelFile]. Its last statement calls [saveAnalyticsData(sheetsData)]
    without awaiting it: that call has nothing to do before its own [await],
    so its requests go out after the caller is done. The result here is the
    argument of that call, if it was made; [loadFileData_task] runs it. *)
Definition parseExcelFile (arrayBuffer : string) : M (option (list SheetData)) :=
  try_catch
    (match XLSX_read arrayBuffer with
     | None => throw {| message := "XLSX.read" |}
     | Some workbook =>
         let sheetsData := parseSheets workbook in
         emit (SetSheets sheetsData);;
         mret (Some sheetsData)
     end)
    (λ error,
       toast {| title := "Error";
                description := "Failed to parse Excel file";
                variant := destructive |};;
       mret None).

Definition loadFileData (user : option User) (fileName : string) : M (option (list SheetData)) :=
  match user with
  | None => mret None
  | Some user =>
      emit (SetLoading true);;
      finally
        (try_catch
           (r ← await (Some (user_id user))
                  (StorageDownload (pretty (user_id user) +:+ "/" +:+ fileName));
            throw_if_error r;;
            match r_data r with
            | Blob arrayBuffer =>
                emit (SetFileData arrayBuffer);;
                parseExcelFile arrayBuffer
            | _ => throw {| message := "Cannot read properties of null (reading 'arrayBuffer')" |}
            end)
           (λ error,
              toast {| title := "Error";
                       description := if String.eqb (message error) ""
                                      then "Failed to load file data" else message error;
                       variant := destructive |};;
              mret None))
        (emit (SetLoading false))
  end.

(** The effect of mounting the viewer on a file: [loadFileData], then the
    [saveAnalyticsData] call it left running. *)
Definition loadFileData_task (user : option User) (fileId : uuid) (fileName : string) : M unit :=
  started ← loadFileData user fileName;
  match started with
  | Some sheetsData => saveAnalyticsData user fileId sheetsData
  | None => mret ()
  end.

(** [Dashboard.fetchFiles] *)
Definition fetchFiles (user : option User) : M unit :=
  match user with
  | None => mret ()
  | Some user =>
      finally
        (try_catch
           (r ← await (Some (user_id user)) (SelectExcelFiles (user_id user));
            throw_if_error r;;
            let rows := match r_data r with Rows rows => rows | _ => [] end in
            emit (SetFiles rows);;
            emit (SetTotalFiles (length rows));;
            emit (SetTotalSize (foldl (λ acc file, acc + file_size file)%N 0%N rows)))
           (λ error,
              toast {| title := "Error";
                       description := "Failed to fetch files";
                       variant := destructive |}))
        (emit (SetLoading false))
  end.
End ViewerHandlers.

(** ** Reading a trace *)

Section Traces.
Context `{JsRuntime}.

Definition calls (t : list Event) : list Call :=
  omap (λ ev, match ev with Issue c => Some c | _ => None end) t.

(** The requests sent and awaited, in order. *)
Definition requests (t : list Event) : list Event :=
  omap (λ ev, match ev with Issue _ | Settle _ _ => Some ev | _ => None end) t.

Definition toasts (t : list Event) : list Toast :=
  omap (λ ev, match ev with ToastShown x => Some x | _ => None end) t.

(** The failures of backend calls seen at an [await]. *)
Definition failures (t : list Event) : list Error :=
  omap (λ ev, match ev with Settle _ (Some e) => Some e | _ => None end) t.

(** Requests sent and not yet awaited after each event, starting from [n]. *)
Fixpoint in_flight (n : nat) (t : list Event) : list nat :=
  match t with
  | [] => []
  | Issue _ :: rest => S n :: in_flight (S n) rest
  | Settle _ _ :: rest => pred n :: in_flight (pred n) rest
  | _ :: rest => n :: in_flight n rest
  end.

(** The largest number of requests in flight at once. *)
Definition max_in_flight (t : list Event) : nat := foldr max 0 (in_flight 0 t).

(** Whether a storage upload to [path] comes back without an error: the
    environment lets it through and the path is free. *)
Definition upload_succeeds (w : World) (path : string) : bool :=
  match faults w with
  | ErrorResult _ :: _ | Rejects _ :: _ => false
  | _ => bool_decide (objects (backend w) !! path = None)
  end.

(** How the environment treats the [i]-th call from now on. *)
Definition outcome (w : World) (i : nat) : Outcome := default Succeeds (faults w !! i).

(** A destructive toast was shown. *)
Definition notified (t : list Event) : Prop :=
  ∃ x, x ∈ toasts t ∧ variant x = destructive.

(** The events of a run. *)
Definition trace {A} (m : M A) (w : World) : list Event := (m w).2.
Definition world_after {A} (m : M A) (w : World) : World := (m w).1.2.
End Traces.

(** ** ChartGenerator.tsx *)

Section ChartGenerator.
Context `{JsRuntime}.

(** [parseFloat(row[yAxis]) || 0] *)
Definition yValue (yAxis : string) (row : object) : value :=
  or_else (VNum (parseFloat (get row yAxis))) (VNum (Num zero)).

(** The object literal of the [map] callback. Its four properties are
    defined in source order, the first two under computed names, so a later
    one replaces an earlier one of the same name. *)
Definition chartItem (xAxis yAxis : string) (row : object) : object :=
  <["value" := yValue yAxis row]>
    (<["name" := get row xAxis]>
       (<[yAxis := yValue yAxis row]>
          (<[xAxis := get row xAxis]> ∅))).

(** [item => item[xAxis] && !isNaN(item[yAxis])] *)
Definition keepItem (xAxis yAxis : string) (item : object) : bool :=
  truthy (get item xAxis) && negb (isNaN (get item yAxis)).

(** [generateChartData]: the argument of [setChartData]. The rows are
    objects, so nothing in the [try] block throws and its [catch] (a toast)
    is never entered. *)
Definition generateChartData (xAxis yAxis : string) (data0 : list object) : list object :=
  let processedData :=
    filter (λ item, keepItem xAxis yAxis item = true) (map (chartItem xAxis yAxis) data0) in
  take 20 processedData.

(** The component: its props and its four pieces of state. *)
Record Chart := {
  fileName : string;
  chart_data : list object;
  selectedChart : string;
  xAxis : string;
  yAxis : string;
  chartData : list object;
}.

(** The state on mount: [useState('bar')], [useState('')] twice, [useState([])]. *)
Definition mount (fileName0 : string) (data0 : list object) : Chart :=
  {| fileName := fileName0; chart_data := data0;
     selectedChart := "bar"; xAxis := ""; yAxis := ""; chartData := [] |}.

(** The effect on [xAxis, yAxis, data]:
    [if (xAxis && yAxis && data.length > 0) generateChartData()]. *)
Definition effect (c : Chart) : Chart :=
  if negb (String.eqb (xAxis c) "") && negb (String.eqb (yAxis c) "")
     && (0 <? length (chart_data c)) then
    {| fileName := fileName c; chart_data := chart_data c;
       selectedChart := selectedChart c; xAxis := xAxis c; yAxis := yAxis c;
       chartData := generateChartData (xAxis c) (yAxis c) (chart_data c) |}
  else c.

Inductive ChartEvent :=
  | SetSelectedChart (chartType : string)
  | SetXAxis (column : string)
  | SetYAxis (column : string)
  | NewProps (fileName0 : string) (data0 : list object).

Definition step (c : Chart) (ev : ChartEvent) : Chart :=
  match ev with
  | SetSelectedChart t =>
      {| fileName := fileName c; chart_data := chart_data c;
         selectedChart := t; xAxis := xAxis c; yAxis := yAxis c;
         chartData := chartData c |}
  | SetXAxis x =>
      effect {| fileName := fileName c; chart_data := chart_data c;
                selectedChart := selectedChart c; xAxis := x; yAxis := yAxis c;
                chartData := chartData c |}
  | SetYAxis y =>
      effect {| fileName := fileName c; chart_data := chart_data c;
                selectedChart := selectedChart c; xAxis := xAxis c; yAxis := y;
                chartData := chartData c |}
  | NewProps f d =>
      effect {| fileName := f; chart_data := d;
                selectedChart := selectedChart c; xAxis := xAxis c; yAxis := yAxis c;
                chartData := chartData c |}
  end.

(** The component after a sequence of user actions and re-renders. *)
Definition after (fileName0 : string) (data0 : list object) (evs : list ChartEvent) : Chart :=
  foldl step (effect (mount fileName0 data0)) evs.

(** A field of [chartConfig]. *)
Inductive ConfigValue :=
  | CString (s : string)
  | CItems (items : list object).

(** The object literal [chartConfig] of [downloadChart], with
    [new Date().toISOString()] as [generatedAt]. No field is [undefined],
    so [JSON.stringify] writes all of them, in this order. *)
Definition chartConfig (c : Chart) (generatedAt : string) : list (string * ConfigValue) := [
  ("fileName", CString (fileName c));
  ("chartType", CString (selectedChart c));
  ("xAxis", CString (xAxis c));
  ("yAxis", CString (yAxis c));
  ("data", CItems (chartData c));
  ("generatedAt", CString generatedAt)
].

(** [downloadChart]: the name of the file saved, its content before
    [JSON.stringify], and the toast. *)
Definition downloadChart (c : Chart) (generatedAt : string)
  : string * list (string * ConfigValue) * Toast :=
  (fileName c +:+ "_chart_" +:+ selectedChart c +:+ ".json",
   chartConfig c generatedAt,
   {| title := "Success";
      description := "Chart configuration downloaded successfully";
      variant := None |}).

(** [obj.k] on an object literal given as a list of fields. *)
Definition field (k : string) (o : list (string * ConfigValue)) : option ConfigValue :=
  snd <$> find (λ kv, String.eqb (fst kv) k) o.
End ChartGenerator.

(** ** A runtime to run examples on

    Doubles cut down to the integers. Printing is decimal; [parseFloat]
    reads an optional sign and the longest run of decimal digits after
    leading white space; [ToNumber] wants the whole trimmed string to be
    such a literal (the empty string is 0). On strings that hold no '.',
    exponent, hexadecimal prefix or "Infinity" this is what JavaScript does;
    the examples use no other strings. *)

Module IntRuntime.
Definition digit (c : Ascii.ascii) : option Z :=
  let n := Ascii.nat_of_ascii c in
  if (48 <=? n) && (n <=? 57) then Some (Z.of_nat n - 48)%Z else None.

(** The value of the longest prefix of digits, and what follows it. *)
Fixpoint digits (s : string) (acc : option Z) : option Z * string :=
  match s with
  | String c rest =>
      match digit c with
      | Some d => digits rest (Some (10 * default 0 acc + d)%Z)
      | None => (acc, s)
      end
  | EmptyString => (acc, EmptyString)
  end.

Definition signed (s : string) : option Z * string :=
  match s with
  | String c rest =>
      if Ascii.nat_of_ascii c =? 45 then
        let '(n, tl) := digits rest None in (Z.opp <$> n, tl)
      else if Ascii.nat_of_ascii c =? 43 then digits rest None
      else digits s None
  | EmptyString => (None, EmptyString)
  end.

Definition parsePrefix (s : string) : number Z :=
  match signed (trimStart s) with
  | (Some n, _) => Num n
  | (None, _) => NaN
  end.

Definition parseWhole (s : string) : number Z :=
  match trim s with
  | EmptyString => Num 0%Z
  | t =>
      match signed t with
      | (Some n, EmptyString) => Num n
      | _ => NaN
      end
  end.

Definition print (n : number Z) : string :=
  match n with
  | NaN => "NaN"
  | Num z => pretty z
  end.

Definition runtime : JsRuntime :=
  {| double := Z;
     zero := 0%Z;
     isZero := Z.eqb 0;
     zero_isZero := eq_refl;
     numberToString := print;
     parseFloatString := parsePrefix;
     stringToNumber := parseWhole |}.
End IntRuntime.


(** ** AnalyticsCharts.tsx, and what Dashboard.tsx and FileList.tsx show of a row *)

Section AnalyticsCharts.
Context `{JsRuntime}.

(** An element of [statusData]. *)
Record StatusCount := {
  sc_status : string;
  sc_count : nat;
}.

(** [existing = acc.find(item => item.status === status)] followed by
    [existing.count += 1]: the first element of that status is updated in
    place; [None] when [find] comes back empty. *)
Fixpoint incrementExisting (status0 : string) (acc : list StatusCount) : option (list StatusCount) :=
  match acc with
  | [] => None
  | item :: rest =>
      if String.eqb (sc_status item) status0 then
        Some ({| sc_status := sc_status item; sc_count := S (sc_count item) |} :: rest)
      else (item ::.) <$> incrementExisting status0 rest
  end.

(** The callback of the [reduce] that builds [statusData]. *)
Definition countStatus (acc : list StatusCount) (file : FileRow) : list StatusCount :=
  match incrementExisting (status file) acc with
  | Some acc' => acc'
  | None => acc ++ [ {| sc_status := status file; sc_count := 1 |} ]
  end.

Definition statusData (files : list FileRow) : list StatusCount :=
  foldl countStatus [] files.

(** An element of [fileSizeData]; the size in megabytes is a rounded
    double, computed by [formatFileSize]. *)
Record FileSize (MB : Type) := {
  fs_name : string;
  fs_size : MB;
  fullName : string;
}.
#[global] Arguments fs_name {MB} _.
#[global] Arguments fs_size {MB} _.
#[global] Arguments fullName {MB} _.

(** [original_name.substring(0, 15) + (original_name.length > 15 ? '...' : '')],
    a character of the string standing for one code unit, as for [trim]. *)
Definition shortName (original : string) : string :=
  String.substring 0 15 original +:+ (if 15 <? String.length original then "..." else "").

Definition fileSizeData {MB} (formatFileSize : N → MB) (files : list FileRow) : list (FileSize MB) :=
  map (λ file, {| fs_name := shortName (original_name file);
                  fs_size := formatFileSize (file_size file);
                  fullName := original_name file |}) files.

(** The tooltip's [labelFormatter]: the full name of the first bar whose
    short name is the label, the label itself when there is none. *)
Definition labelFormatter {MB} (data0 : list (FileSize MB)) (label : string) : string :=
  match find (λ d, String.eqb (fs_name d) label) data0 with
  | Some item => fullName item
  | None => label
  end.

(** Dashboard.tsx line 148: the "Analytics Ready" card. *)
Definition analyticsReady (files : list FileRow) : nat :=
  length (filter (λ f, status f = "uploaded") files).

(** FileList.tsx [getStatusBadgeVariant]. *)
Definition getStatusBadgeVariant (status0 : string) : string :=
  if String.eqb status0 "uploaded" then "default"
  else if String.eqb status0 "processing" then "secondary"
  else if String.eqb status0 "error" then "destructive"
  else "outline".

(** The property names an object made by a literal inherits from
    [Object.prototype]: reading one of them from an object without an own
    property of that name gives a built-in, not [undefined]. *)
Definition inheritedNames : list string :=
  [ "__proto__"; "constructor"; "hasOwnProperty"; "isPrototypeOf";
    "propertyIsEnumerable"; "toLocaleString"; "toString"; "valueOf";
    "__defineGetter__"; "__defineSetter__"; "__lookupGetter__"; "__lookupSetter__" ].

(** ExcelDataViewer.tsx, a cell of the data preview:
    [row[column]?.toString() || '']. Where [row] has no own property of that
    name and inherits one, the cell shows the text of a built-in, which is
    not modelled: [None]. *)
Definition cellText (row : object) (column : value) : option string :=
  match row !! toString column with
  | Some VUndefined | Some VNull => Some ""
  | Some v => Some (toString v)
  | None => if bool_decide (toString column ∈ inheritedNames) then None else Some ""
  end.
End AnalyticsCharts.

(** ** Notions used to state what the handlers do *)

Section Notions.
Context `{JsRuntime}.

(** The commands the migration grants to the owner of a row. *)
Definition granted_to_owner (t : Rls.table) (c : Rls.command) : bool :=
  match t, c with
  | Rls.profiles, (Rls.SELECT | Rls.INSERT | Rls.UPDATE) => true
  | Rls.excel_files, _ => true
  | Rls.analytics_data, (Rls.SELECT | Rls.INSERT) => true
  | _, _ => false
  end.

(** A row as [onDrop] writes it: marked uploaded, stored under its owner's
    folder and its own file name. *)
Definition app_row (r : FileRow) : Prop :=
  status r = "uploaded"
  ∧ file_path r = pretty (f_user_id r) +:+ "/" +:+ filename r.

(** The row [onDrop] adds for a file: what it puts in the insert, and the
    defaults of the table. *)
Definition uploaded_row (user : User) (now : N) (file : File) (b : Backend) : FileRow :=
  {| f_id := next_uuid b; f_user_id := user_id user;
     filename := pretty now +:+ "-" +:+ file_name file;
     original_name := file_name file; file_size := size file;
     file_path := pretty (user_id user) +:+ "/" +:+ pretty now +:+ "-" +:+ file_name file;
     upload_date := db_now b; status := "uploaded"; sheet_count := 0; row_count := 0 |}.

(** A tally of the files [fs] by status. *)
Definition counted (fs : list FileRow) (acc : list StatusCount) : Prop :=
  NoDup (map sc_status acc)
  ∧ (∀ item, item ∈ acc →
       sc_count item = length (filter (λ f, status f = sc_status item) fs)
       ∧ 0 < sc_count item)
  ∧ (∀ f, f ∈ fs → status f ∈ map sc_status acc)
  ∧ sum_list (map sc_count acc) = length fs.




(** What was written to the console. *)
Definition console_errors (t : list Event) : list Error :=
  omap (λ ev, match ev with ConsoleError _ e => Some e | _ => None end) t.

Definition success_toast (msg : string) : Toast :=
  {| title := "Success"; description := msg; variant := None |}.
End Notions.

(** ** What the analytics rows are said to hold

    Definitions written from the description of the analytics summary, to be
    compared with what [parseExcelFile] and [saveAnalyticsData] compute. *)

Section AnalyticsSummary.
Context `{JsRuntime}.

(** A header cell that is not empty: truthy, and not blank once trimmed. *)
Definition nonEmptyHeader (h : value) : bool :=
  truthy h && negb (String.eqb (trim (toString h)) "").

(** The header cells of a sheet, holes left out. *)
Definition headerCells (headers : jsarray) : list value := omap id headers.

(** Read to the letter, "non-empty trimmed header names": the names, trimmed. *)
Definition trimmedHeaderNames (headers : jsarray) : list value :=
  map (λ h, VStr (trim (toString h))) (filter (λ h, nonEmptyHeader h = true) (headerCells headers)).

(** The summary of a sheet given by its rows, header row first: the
    non-empty header cells as they stand, the number of rows after the
    header row, and the first min(5, rowCount) formatted rows. *)
Definition summary (headers : jsarray) (rows : list jsarray) : AnalyticsData :=
  {| ad_columns := filter (λ h, nonEmptyHeader h = true) (headerCells headers);
     rowCount := length rows;
     sampleData := map (formatRow headers) (take (min 5 (length rows)) rows) |}.

(** One payload per sheet that has at least a header row, in workbook order. *)
Definition summaries (user : User) (fileId : uuid) (workbook : Workbook) : list AnalyticsPayload :=
  flat_map (λ sheetName,
    match sheet_to_json workbook sheetName with
    | [] => []
    | headers :: rows =>
        [ {| up_id := None; up_user_id := user_id user; up_file_id := fileId;
             up_sheet_name := sheetName; up_data := summary headers rows |} ]
    end) (SheetNames workbook).

(** What a stored row and a submitted payload hold, the generated columns
    ([id], [created_at]) left aside. *)
Definition stored (a : AnalyticsRow) : uuid * uuid * string * AnalyticsData :=
  (a_file_id a, a_user_id a, a_sheet_name a, a_data a).

Definition submitted (p : AnalyticsPayload) : uuid * uuid * string * AnalyticsData :=
  (up_file_id p, up_user_id p, up_sheet_name p, up_data p).

(** The file a payload refers to exists ([REFERENCES public.excel_files(id)]). *)
Definition file_exists (fileId : uuid) (b : Backend) : bool :=
  existsb (λ r, N.eqb (f_id r) fileId) (excel_files b).
End AnalyticsSummary.

(** ** What holds of the chart component in every state *)

Section ChartInvariant.
Context `{JsRuntime}.

(** What holds of the component in every state it can reach: the chart
    data is short, and it is the chart data of the current selections as
    soon as both axes are chosen and there are rows. *)
Definition chart_invariant (c : Chart) : Prop :=
  length (chartData c) ≤ 20
  ∧ (xAxis c ≠ "" → yAxis c ≠ "" → chart_data c ≠ [] →
     chartData c = generateChartData (xAxis c) (yAxis c) (chart_data c)).
End ChartInvariant.

(** ** Inputs for the concrete runs *)

Section Fixtures.
#[local] Existing Instance IntRuntime.runtime.

Definition alice : User := {| user_id := 1%N |}.

Definition empty_backend : Backend :=
  {| objects := ∅; excel_files := []; analytics_data := []; next_uuid := 100%N; db_now := 0%N |}.

Definition calm (b : Backend) : World := {| backend := b; faults := [] |}.

Definition csv : File :=
  {| file_name := "a.csv"; file_type := "text/csv"; size := 3%N; content := "x,y" |}.

(** A file of [alice] that has been uploaded. *)
Definition report : FileRow :=
  {| f_id := 5%N; f_user_id := 1%N; filename := "7-a.csv"; original_name := "a.csv";
     file_size := 3%N; file_path := "1/7-a.csv"; upload_date := 0%N;
     status := "uploaded"; sheet_count := 0; row_count := 0 |}.

Definition with_report : Backend :=
  {| objects := {[ "1/7-a.csv" := "x,y" ]}; excel_files := [report];
     analytics_data := []; next_uuid := 100%N; db_now := 0%N |}.

(** One sheet whose only header is " a ", with one row under it. *)
Definition padded : Workbook :=
  {| SheetNames := ["Sheet1"];
     Sheets := {[ "Sheet1" := [ [Some (VStr " a ")]; [Some (VStr "x")] ] ]} |}.

(** Two sheets, each with a header row and one row. *)
Definition two_sheets : Workbook :=
  {| SheetNames := ["A"; "B"];
     Sheets := {[ "A" := [ [Some (VStr "x")]; [Some (VNum (Num 1%Z))] ];
                  "B" := [ [Some (VStr "y")]; [Some (VNum (Num 2%Z))] ] ]} |}.

Definition denied : Error := {| message := "permission denied" |}.

(** The columns of the payloads sent in a trace. *)
Definition sent_columns (t : list Event) : list (list value) :=
  omap (λ c, match c with
             | UpsertAnalytics p => Some (ad_columns (up_data p))
             | _ => None
             end) (calls t).

Definition bob : User := {| user_id := 2%N |}.

(** The environment lets the upload through and fails the insert. *)
Definition insert_denied : World :=
  {| backend := empty_backend; faults := [Succeeds; ErrorResult denied] |}.

(** The only sheet [parseExcelFile] makes of [padded], and its only row. *)
Definition padded_row : object := formatRow [Some (VStr " a ")] [Some (VStr "x")].

Definition padded_sheet : SheetData :=
  {| name := "Sheet1"; data := [padded_row]; columns := [VStr " a "] |}.

Definition paris : object := {[ "city" := VStr "Paris"; "sales" := VStr "12" ]}.

(** Two files whose names agree on their first 15 characters. *)
Definition january : FileRow :=
  {| f_id := 8%N; f_user_id := 1%N; filename := "9-quarterly-report-january.xlsx";
     original_name := "quarterly-report-january.xlsx"; file_size := 10%N;
     file_path := "1/9-quarterly-report-january.xlsx"; upload_date := 1%N;
     status := "uploaded"; sheet_count := 0; row_count := 0 |}.

Definition february : FileRow :=
  {| f_id := 9%N; f_user_id := 1%N; filename := "9-quarterly-report-february.xlsx";
     original_name := "quarterly-report-february.xlsx"; file_size := 20%N;
     file_path := "1/9-quarterly-report-february.xlsx"; upload_date := 2%N;
     status := "processing"; sheet_count := 0; row_count := 0 |}.
End Fixtures.

(** * Properties *)

(** ** Row-level security *)

Section RlsFacts.

Lemma permits_owner p auth_uid user_id :
  Rls.predicate p = Rls.EUidIsUserId →
  Rls.permits p auth_uid user_id = true ↔ auth_uid = Some user_id.
Proof.
  intros Hp. unfold Rls.permits. rewrite Hp. simpl.
  destruct auth_uid as [uid|]; [|split; discriminate].
  rewrite N.eqb_eq. split; congruence.
Qed.

(** C1, as the claim states it, fails: the first policy of the migration,
    "Users can view all profiles", lets any caller read any profile row. *)
Lemma profiles_select_not_owner_scoped :
  ¬ (∀ p auth_uid user_id,
       p ∈ Rls.policies → Rls.permits p auth_uid user_id = true → auth_uid = Some user_id).
Proof.
  intros Hall.
  pose proof (Hall (Rls.Build_policy "Users can view all profiles" Rls.profiles
                      Rls.SELECT Rls.USING Rls.ETrue) (Some 1%N) 2%N) as Hbad.
  assert (Some 1%N = Some 2%N) as Heq; [|discriminate Heq].
  apply Hbad; [apply list_elem_of_here | reflexivity].
Qed.

(** C1, amended: every policy on [profiles], [excel_files] and
    [analytics_data] passes exactly when the caller's uid is the row's
    [user_id], except the SELECT policy on [profiles], which passes for
    everyone; so a command let through by row-level security is either a
    read of [profiles] or a command of the row's owner. *)
Theorem policies_owner_scoped_except_profiles_select :
  (∀ p, p ∈ Rls.policies →
     (Rls.on_table p = Rls.profiles ∧ Rls.for_command p = Rls.SELECT
      ∧ ∀ auth_uid user_id, Rls.permits p auth_uid user_id = true)
     ∨ (∀ auth_uid user_id, Rls.permits p auth_uid user_id = true ↔ auth_uid = Some user_id))
  ∧ (∀ t c auth_uid user_id,
       Rls.allowed t c auth_uid user_id = true →
       (t = Rls.profiles ∧ c = Rls.SELECT) ∨ auth_uid = Some user_id).
Proof.
  split.
  - intros p Hp. unfold Rls.policies in Hp.
    repeat (apply elem_of_cons in Hp as [-> | Hp]);
      try (by left);
      try (right; intros; by apply permits_owner).
    by apply elem_of_nil in Hp.
  - intros t c auth_uid user_id.
    unfold Rls.allowed, Rls.policies, Rls.applies, Rls.permits.
    destruct t, c; simpl; try discriminate; auto;
      destruct auth_uid as [uid|]; simpl; try discriminate;
      rewrite ?orb_false_r; rewrite N.eqb_eq; intros ->; by right.
Qed.

End RlsFacts.

(** ** parseExcelFile *)

Section ParseFacts.
Context `{JsRuntime}.

Lemma or_else_falsy (v e : value) : truthy v = false → or_else v e = e.
Proof. unfold or_else. by intros ->. Qed.

Lemma or_else_empty (v : value) :
  or_else v (VStr "") = VStr "" ∨ truthy (or_else v (VStr "")) = true.
Proof. unfold or_else. destruct (truthy v) eqn:E; auto. Qed.

Lemma assign_lookup (obj : object) key v k :
  assign obj key v !! k
  = if decide (key = k ∧ k ≠ "__proto__") then Some v else obj !! k.
Proof.
  unfold assign. destruct (decide (key = "__proto__")) as [->|Hkey].
  - destruct (decide _) as [[<- Hk]|_]; done.
  - destruct (decide _) as [[<- _]|Hk].
    + apply lookup_insert_eq.
    + apply lookup_insert_ne. intros <-. by apply Hk.
Qed.

(** Every entry of the object built by [forEach] was there before or was
    written for some header, from the cell under it. *)
Lemma forEachHeader_lookup headers : ∀ i row obj k v,
  forEachHeader headers i row obj !! k = Some v →
  obj !! k = Some v
  ∨ ∃ j h, headers !! j = Some (Some h) ∧ toString h = k
           ∧ v = or_else (index row (i + j)) (VStr "").
Proof.
  induction headers as [|[header|] rest IH]; intros i row obj k v Hk; simpl in Hk.
  - by left.
  - apply IH in Hk as [Hk | (j & h & Hj & Hh & Hv)].
    + rewrite assign_lookup in Hk. destruct (decide _) as [[<- _]|_].
      * inversion Hk; subst.
        right. exists 0, header. rewrite Nat.add_0_r. done.
      * by left.
    + right. exists (S j), h. rewrite Nat.add_succ_r. done.
  - apply IH in Hk as [Hk | (j & h & Hj & Hh & Hv)].
    + by left.
    + right. exists (S j), h. rewrite Nat.add_succ_r. done.
Qed.

Lemma forEachHeader_other headers : ∀ i row obj k,
  (∀ j h, headers !! j = Some (Some h) → toString h ≠ k) →
  forEachHeader headers i row obj !! k = obj !! k.
Proof.
  induction headers as [|[header|] rest IH]; intros i row obj k Hno; simpl.
  - done.
  - rewrite IH; [|intros j h Hj; apply (Hno (S j) h Hj)].
    rewrite assign_lookup. destruct (decide _) as [[Heq _]|_]; [|done].
    by destruct (Hno 0 header eq_refl).
  - apply IH. intros j h Hj. apply (Hno (S j) h Hj).
Qed.

(** Nothing is ever stored under ["__proto__"]. *)
Lemma forEachHeader_proto headers : ∀ i row obj,
  forEachHeader headers i row obj !! "__proto__" = obj !! "__proto__".
Proof.
  induction headers as [|[header|] rest IH]; intros i row obj; simpl; [done|..].
  - rewrite IH, assign_lookup. by destruct (decide _) as [[_ ?]|_].
  - apply IH.
Qed.

(** The last header of a name decides the entry of that name. *)
Lemma forEachHeader_last headers : ∀ i row obj j h,
  headers !! j = Some (Some h) →
  toString h ≠ "__proto__" →
  (∀ j' h', j < j' → headers !! j' = Some (Some h') → toString h' ≠ toString h) →
  forEachHeader headers i row obj !! toString h
  = Some (or_else (index row (i + j)) (VStr "")).
Proof.
  induction headers as [|hd rest IH]; intros i row obj j h Hj Hproto Hlast; [done|].
  destruct j as [|j].
  - simpl in Hj. inversion Hj; subst hd. simpl.
    rewrite forEachHeader_other.
    + rewrite Nat.add_0_r, assign_lookup. by destruct (decide _) as [_|[]].
    + intros j' h' Hj'. apply (Hlast (S j') h'); [lia | done].
  - simpl in Hj.
    assert (∀ obj', forEachHeader rest (S i) row obj' !! toString h
                    = Some (or_else (index row (i + S j)) (VStr ""))) as Hrest.
    { intros obj'. rewrite Nat.add_succ_r. apply (IH (S i) row obj' j h Hj Hproto).
      intros j' h' Hlt Hj'. apply (Hlast (S j') h'); [lia | done]. }
    destruct hd; simpl; apply Hrest.
Qed.

(** Conversely, an entry was there before and no header touched it, or it
    was written for the last header of its name, which is not
    ["__proto__"]. *)
Lemma forEachHeader_written headers : ∀ i row obj k v,
  forEachHeader headers i row obj !! k = Some v →
  (obj !! k = Some v
   ∧ (k = "__proto__" ∨ ∀ j h, headers !! j = Some (Some h) → toString h ≠ k))
  ∨ (k ≠ "__proto__"
     ∧ ∃ j h, headers !! j = Some (Some h) ∧ toString h = k
              ∧ (∀ j' h', j < j' → headers !! j' = Some (Some h') → toString h' ≠ k)
              ∧ v = or_else (index row (i + j)) (VStr "")).
Proof.
  induction headers as [|[header|] rest IH]; intros i row obj k v Hk; simpl in Hk.
  - left. split; [done|]. right. intros j h Hj. by rewrite lookup_nil in Hj.
  - apply IH in Hk as [[Hk Hnone] | (Hproto & j & h & Hj & Hh & Hlast & Hv)].
    + rewrite assign_lookup in Hk.
      destruct (decide (toString header = k ∧ k ≠ "__proto__")) as [[Heq Hproto]|Hno].
      * inversion Hk; subst v. right. split; [done|].
        exists 0, header. rewrite Nat.add_0_r. repeat split; try done.
        intros [|j'] h' Hlt Hj'; [lia|]. simpl in Hj'.
        destruct Hnone as [->|Hnone]; [done|]. by apply (Hnone j' h').
      * left. split; [done|].
        destruct (decide (k = "__proto__")) as [->|Hproto]; [by left|].
        destruct Hnone as [->|Hnone]; [by left|]. right.
        intros [|j] h Hj; simpl in Hj.
        -- inversion Hj; subst h. intros Heq. by apply Hno.
        -- by apply (Hnone j h).
    + right. split; [done|]. exists (S j), h. rewrite Nat.add_succ_r.
      repeat split; try done.
      intros [|j'] h' Hlt Hj'; [lia|]. simpl in Hj'. apply (Hlast j' h'); [lia|done].
  - apply IH in Hk as [[Hk Hnone] | (Hproto & j & h & Hj & Hh & Hlast & Hv)].
    + left. split; [done|]. destruct Hnone as [->|Hnone]; [by left|]. right.
      intros [|j] h Hj; simpl in Hj; [done|]. by apply (Hnone j h).
    + right. split; [done|]. exists (S j), h. rewrite Nat.add_succ_r.
      repeat split; try done.
      intros [|j'] h' Hlt Hj'; [lia|]. simpl in Hj'. apply (Hlast j' h'); [lia|done].
Qed.

Lemma parseSheet_names wb sheetName :
  map name (parseSheet wb sheetName)
  = if decide (length (sheet_to_json wb sheetName) ≠ 0) then [sheetName] else [].
Proof. unfold parseSheet. by destruct (sheet_to_json wb sheetName). Qed.

Lemma parseSheets_names wb :
  map name (parseSheets wb)
  = filter (λ n, length (sheet_to_json wb n) ≠ 0) (SheetNames wb).
Proof.
  unfold parseSheets. induction (SheetNames wb) as [|n ns IH]; [done|].
  simpl. rewrite map_app, IH, parseSheet_names.
  rewrite filter_cons. by destruct (decide _).
Qed.

Lemma parseSheets_elem wb sheet :
  sheet ∈ parseSheets wb →
  ∃ headers rows,
    name sheet ∈ SheetNames wb
    ∧ sheet_to_json wb (name sheet) = headers :: rows
    ∧ data sheet = map (formatRow headers) rows
    ∧ columns sheet = filterHeaders headers.
Proof.
  unfold parseSheets. rewrite list_elem_of_In, in_flat_map.
  intros (n & Hn & Hin). unfold parseSheet in Hin.
  destruct (sheet_to_json wb n) as [|headers rows] eqn:E; [done|].
  destruct Hin as [<-|[]]. simpl. exists headers, rows.
  rewrite list_elem_of_In. done.
Qed.

(** C8, corrected: a sheet for which [sheet_to_json] returns no row is left
    out of the result, every other sheet is kept, in order. A formatted row
    holds, under the name of a header other than ["__proto__"], the cell
    below the last header of that name or, when that cell is falsy (missing,
    0, false, ...), the empty string; it holds nothing else, nothing under
    ["__proto__"], and no falsy value other than the empty string. *)
Theorem parseExcelFile_skips_empty_sheets_and_blanks_falsy_cells (wb : Workbook) :
  (∀ sheetName, sheet_to_json wb sheetName = [] → parseSheet wb sheetName = [])
  ∧ map name (parseSheets wb)
    = filter (λ n, length (sheet_to_json wb n) ≠ 0) (SheetNames wb)
  ∧ (∀ sheet, sheet ∈ parseSheets wb →
       ∃ headers rows, sheet_to_json wb (name sheet) = headers :: rows
                       ∧ data sheet = map (formatRow headers) rows)
  ∧ (∀ headers row j h,
       headers !! j = Some (Some h) →
       toString h ≠ "__proto__" →
       (∀ j' h', j < j' → headers !! j' = Some (Some h') → toString h' ≠ toString h) →
       formatRow headers row !! toString h = Some (or_else (index row j) (VStr ""))
       ∧ (truthy (index row j) = false →
          formatRow headers row !! toString h = Some (VStr ""))
       ∧ (truthy (index row j) = true →
          formatRow headers row !! toString h = Some (index row j)))
  ∧ (∀ headers row k v,
       formatRow headers row !! k = Some v →
       (v = VStr "" ∨ truthy v = true)
       ∧ k ≠ "__proto__"
       ∧ ∃ j h, headers !! j = Some (Some h) ∧ toString h = k
                ∧ (∀ j' h', j < j' → headers !! j' = Some (Some h') → toString h' ≠ k)
                ∧ v = or_else (index row j) (VStr ""))
  ∧ or_else (VNum (Num zero)) (VStr "") = VStr ""
  ∧ or_else (VBool false) (VStr "") = VStr "".
Proof.
  split; [|split; [|split; [|split; [|split; [|split]]]]].
  - intros sheetName E. unfold parseSheet. by rewrite E.
  - apply parseSheets_names.
  - intros sheet Hin.
    destruct (parseSheets_elem wb sheet Hin) as (headers & rows & _ & E & D & _).
    by exists headers, rows.
  - intros headers row j h Hj Hproto Hlast. unfold formatRow.
    rewrite (forEachHeader_last headers 0 row ∅ j h Hj Hproto Hlast). simpl.
    split; [done|]. unfold or_else. split; by intros ->.
  - intros headers row k v Hk. unfold formatRow in Hk.
    apply forEachHeader_written in Hk
      as [[Hk _] | (Hproto & j & h & Hj & Hh & Hlast & ->)].
    + by rewrite lookup_empty in Hk.
    + split; [apply or_else_empty|]. split; [done|]. by exists j, h.
  - apply or_else_falsy. simpl. by rewrite zero_isZero.
  - done.
Qed.

End ParseFacts.

(** ** Handlers *)

Section RunFacts.
Context `{JsRuntime}.

Lemma await_run auth_uid c w :
  await auth_uid c w
  = (match (exchange auth_uid c w).1 with inl r => Normal r | inr e => Thrown e end,
     (exchange auth_uid c w).2,
     [Issue c; Settle c (failure (exchange auth_uid c w).1)]).
Proof.
  unfold await, issue, settle, mbind, M_bind.
  by destruct (exchange auth_uid c w) as [[r|e] w'].
Qed.

Lemma exchange_faults auth_uid c w : faults (exchange auth_uid c w).2 = tail (faults w).
Proof.
  unfold exchange. destruct (faults w) as [|[| |] rest]; simpl; try done;
    by destruct (perform auth_uid c (backend w)).
Qed.

Lemma exchange_outcome auth_uid c w :
  exchange auth_uid c w
  = match outcome w 0 with
    | Succeeds => (inl (perform auth_uid c (backend w)).1,
                   {| backend := (perform auth_uid c (backend w)).2; faults := tail (faults w) |})
    | ErrorResult e => (inl {| r_data := NoData; r_error := Some e |},
                        {| backend := backend w; faults := tail (faults w) |})
    | Rejects e => (inr e, {| backend := backend w; faults := tail (faults w) |})
    end.
Proof.
  unfold exchange, outcome. destruct (faults w) as [|[| |] rest]; simpl; try done;
    by destruct (perform auth_uid c (backend w)).
Qed.

Lemma outcome_tail b w i :
  outcome {| backend := b; faults := tail (faults w) |} i = outcome w (S i).
Proof. unfold outcome. by destruct (faults w). Qed.

End RunFacts.

Ltac unfold_handler :=
  unfold trace, world_after, mbind, M_bind, finally, try_catch, throw_if_error,
    emit, toast, throw, mret, M_ret; simpl.

Ltac exec_await :=
  rewrite await_run;
  match goal with
  | |- context [exchange ?a ?c ?w] =>
      let E := fresh "E" in
      destruct (exchange a c w) as [[?r|?e] ?w] eqn:E; simpl
  end.

Ltac exec_error :=
  match goal with
  | |- context [r_error ?r] =>
      let E := fresh "Eerr" in destruct (r_error r) eqn:E; simpl
  end.

Ltac solve_notified :=
  unfold notified; simpl;
  eexists; split; [apply list_elem_of_here | reflexivity].

Ltac exec_step :=
  first
    [ rewrite await_run, exchange_outcome; simpl
    | match goal with
      | |- context [match outcome ?w ?i with _ => _ end] =>
          destruct (outcome w i) eqn:?; simpl
      | |- context [match objects ?b !! ?p with _ => _ end] =>
          destruct (objects b !! p) eqn:?; simpl
      | |- context [if Rls.allowed ?t ?c ?a ?u then _ else _] =>
          destruct (Rls.allowed t c a u) eqn:?; simpl
      | |- context [match r_error ?r with _ => _ end] =>
          destruct (r_error r) eqn:?; simpl
      | |- context [match r_data ?r with _ => _ end] =>
          destruct (r_data r) eqn:?; simpl
      end ].

Ltac exec := unfold_handler; repeat exec_step.

Ltac count_in_flight := unfold max_in_flight, trace; simpl; lia.

Ltac solve_failed :=
  intros Hfail; first [ exfalso; apply Hfail; reflexivity | solve_notified ].

Section HandlerFacts.
Context `{JsRuntime}.

Lemma upload_exchange auth_uid path content0 w :
  failure (exchange auth_uid (StorageUpload path content0) w).1 = None
  ↔ upload_succeeds w path = true.
Proof.
  unfold exchange, upload_succeeds, perform, storage_upload.
  destruct (faults w) as [|[| |] rest]; simpl; try done;
    destruct (objects (backend w) !! path) eqn:E; simpl;
    rewrite ?bool_decide_eq_true; naive_solver.
Qed.

Lemma onDrop_calls user now file rest w :
  includes validTypes (file_type file) = true →
  let fileName := pretty now +:+ "-" +:+ file_name file in
  let filePath := pretty (user_id user) +:+ "/" +:+ fileName in
  let upload := StorageUpload filePath (content file) in
  let insert := InsertExcelFile
                  {| nf_user_id := user_id user; nf_filename := fileName;
                     nf_original_name := file_name file; nf_file_size := size file;
                     nf_file_path := filePath; nf_status := "uploaded" |} in
  calls (trace (onDrop (Some user) now (file :: rest)) w)
  = if upload_succeeds w filePath then [upload; insert] else [upload].
Proof.
  intros Hvalid fileName filePath upload insert. unfold onDrop. rewrite Hvalid.
  unfold_handler.
  pose proof (upload_exchange (Some (user_id user)) filePath (content file) w) as Hup.
  fold fileName filePath in Hup |- *.
  exec_await; simpl in Hup.
  - exec_error; try rewrite Eerr in Hup.
    + destruct (upload_succeeds w filePath) eqn:Eu; [|done].
      destruct Hup as [_ Hup]. by specialize (Hup eq_refl).
    + destruct Hup as [Hup _]. rewrite (Hup eq_refl).
      exec_await; [exec_error|]; done.
  - destruct (upload_succeeds w filePath) eqn:Eu; [|done].
    destruct Hup as [_ Hup]. by specialize (Hup eq_refl).
Qed.

(** C10: [handleDelete] sends the storage removal first and the delete of
    the [excel_files] row only once that removal has come back without an
    error. When the removal fails the backend is left as it was, the row
    included; when the removal works the object is gone whatever becomes of
    the delete, and when the delete then fails the row stays and nothing is
    sent to bring the object back. *)
Theorem handleDelete_storage_then_row (user : User) (file : FileRow) (w : World) :
  let remove := StorageRemove [file_path file] in
  let delete_row := DeleteExcelFile (f_id file) (user_id user) in
  let t := trace (handleDelete (Some user) file) w in
  let b' := backend (world_after (handleDelete (Some user) file) w) in
  (outcome w 0 ≠ Succeeds →
     (∃ e, requests t = [Issue remove; Settle remove (Some e)]) ∧ b' = backend w)
  ∧ (outcome w 0 = Succeeds →
       (∃ f, requests t = [Issue remove; Settle remove None;
                           Issue delete_row; Settle delete_row f])
       ∧ objects b' = delete (file_path file) (objects (backend w)))
  ∧ (outcome w 0 = Succeeds → outcome w 1 ≠ Succeeds →
       excel_files b' = excel_files (backend w)
       ∧ objects b' = delete (file_path file) (objects (backend w))
       ∧ notified t)
  ∧ (outcome w 0 = Succeeds → outcome w 1 = Succeeds →
       excel_files b'
       = filter (λ r, deleted_by (Some (user_id user)) (f_id file) (user_id user) r = false)
           (excel_files (backend w))).
Proof.
  intros remove delete_row t b'. subst t b'. unfold handleDelete.
  unfold_handler. rewrite await_run, exchange_outcome.
  destruct (outcome w 0) as [|e1|e1] eqn:O1; simpl.
  - rewrite await_run, exchange_outcome. simpl. rewrite outcome_tail.
    destruct (outcome w 1) as [|e2|e2] eqn:O2; simpl;
      repeat split; intros; try done; eauto; solve_notified.
  - repeat split; intros; try done; eauto.
  - repeat split; intros; try done; eauto.
Qed.

(** C6, amended: for a signed-in user and a first file of an accepted type,
    [onDrop] sends exactly one storage upload and, only when that upload
    comes back without an error, the insert of the metadata row after it:
    one or two backend calls, never more. *)
Theorem onDrop_uploads_once_then_inserts user now file rest w :
  includes validTypes (file_type file) = true →
  let fileName := pretty now +:+ "-" +:+ file_name file in
  let filePath := pretty (user_id user) +:+ "/" +:+ fileName in
  let upload := StorageUpload filePath (content file) in
  let insert := InsertExcelFile
                  {| nf_user_id := user_id user; nf_filename := fileName;
                     nf_original_name := file_name file; nf_file_size := size file;
                     nf_file_path := filePath; nf_status := "uploaded" |} in
  let sent := calls (trace (onDrop (Some user) now (file :: rest)) w) in
  sent = (if upload_succeeds w filePath then [upload; insert] else [upload])
  ∧ 1 ≤ length sent ≤ 2.
Proof.
  intros Hvalid fileName filePath upload insert sent.
  assert (sent = if upload_succeeds w filePath then [upload; insert] else [upload]) as ->
    by apply (onDrop_calls user now file rest w Hvalid).
  split; [done|]. destruct (upload_succeeds w filePath); simpl; lia.
Qed.

(** *** One request at a time, and a toast for every failure *)

Lemma onDrop_sequential user now files w :
  max_in_flight (trace (onDrop user now files) w) ≤ 1.
Proof.
  unfold onDrop. destruct user as [user|]; [|count_in_flight].
  destruct files as [|file rest]; [count_in_flight|].
  destruct (includes validTypes (file_type file)); simpl; [|count_in_flight].
  exec; count_in_flight.
Qed.

Lemma onDrop_notifies user now files w :
  failures (trace (onDrop user now files) w) ≠ [] →
  notified (trace (onDrop user now files) w).
Proof.
  unfold onDrop. destruct user as [user|]; [|solve_failed].
  destruct files as [|file rest]; [solve_failed|].
  destruct (includes validTypes (file_type file)); simpl; [|intros _; solve_notified].
  exec; solve_failed.
Qed.

Lemma handleDownload_sequential user file w :
  max_in_flight (trace (handleDownload user file) w) ≤ 1.
Proof. unfold handleDownload. exec; count_in_flight. Qed.

Lemma handleDownload_notifies user file w :
  failures (trace (handleDownload user file) w) ≠ [] →
  notified (trace (handleDownload user file) w).
Proof. unfold handleDownload. exec; solve_failed. Qed.

Lemma handleDelete_sequential user file w :
  max_in_flight (trace (handleDelete user file) w) ≤ 1.
Proof.
  unfold handleDelete. destruct user as [user|]; [|count_in_flight].
  exec; count_in_flight.
Qed.

Lemma handleDelete_notifies user file w :
  failures (trace (handleDelete user file) w) ≠ [] →
  notified (trace (handleDelete user file) w).
Proof.
  unfold handleDelete. destruct user as [user|]; [|solve_failed].
  exec; solve_failed.
Qed.

Lemma fetchFiles_sequential user w :
  max_in_flight (trace (fetchFiles user) w) ≤ 1.
Proof.
  unfold fetchFiles. destruct user as [user|]; [|count_in_flight].
  exec; count_in_flight.
Qed.

Lemma fetchFiles_notifies user w :
  failures (trace (fetchFiles user) w) ≠ [] →
  notified (trace (fetchFiles user) w).
Proof.
  unfold fetchFiles. destruct user as [user|]; [|solve_failed].
  exec; solve_failed.
Qed.

Section WithXlsx.
Variable XLSX_read : string → option Workbook.

Lemma parseExcelFile_trace arrayBuffer w :
  trace (parseExcelFile XLSX_read arrayBuffer) w
  = match XLSX_read arrayBuffer with
    | Some workbook => [SetSheets (parseSheets workbook)]
    | None => [ToastShown {| title := "Error";
                             description := "Failed to parse Excel file";
                             variant := destructive |}]
    end.
Proof. unfold parseExcelFile. unfold_handler. by destruct (XLSX_read arrayBuffer). Qed.

Lemma loadFileData_sequential user fileName0 w :
  max_in_flight (trace (loadFileData XLSX_read user fileName0) w) ≤ 1.
Proof.
  unfold loadFileData, parseExcelFile. destruct user as [user|]; [|count_in_flight].
  exec; try destruct (XLSX_read _); count_in_flight.
Qed.

Lemma loadFileData_notifies user fileName0 w :
  failures (trace (loadFileData XLSX_read user fileName0) w) ≠ [] →
  notified (trace (loadFileData XLSX_read user fileName0) w).
Proof.
  unfold loadFileData, parseExcelFile. destruct user as [user|]; [|solve_failed].
  exec; try destruct (XLSX_read _); simpl; solve_failed.
Qed.

Lemma parseExcelFile_notifies arrayBuffer w :
  XLSX_read arrayBuffer = None →
  notified (trace (parseExcelFile XLSX_read arrayBuffer) w).
Proof. intros E. rewrite parseExcelFile_trace, E. solve_notified. Qed.
End WithXlsx.

End HandlerFacts.

(** ** saveAnalyticsData *)

Section AnalyticsFacts.
Context `{JsRuntime}.

Lemma bind_run {A B} (m : M A) (f : A → M B) w :
  (m ≫= f) w
  = match m w with
    | (Normal a, w', t) => let '(r, w'', t') := f a w' in (r, w'', t ++ t')
    | (Thrown e, w', t) => (Thrown e, w', t)
    end.
Proof. done. Qed.

Lemma mapM_issue_run {A} auth_uid (f : A → Call) (l : list A) : ∀ w,
  ∃ ps w',
    mapM (λ a, issue auth_uid (f a)) l w = (Normal ps, w', map (λ a, Issue (f a)) l)
    ∧ faults w' = drop (length l) (faults w).
Proof.
  induction l as [|a l IH]; intros w; simpl.
  - exists [], w. done.
  - rewrite bind_run. unfold issue at 1.
    pose proof (exchange_faults auth_uid (f a) w) as Hf.
    destruct (exchange auth_uid (f a) w) as [res w1]. simpl in Hf.
    rewrite bind_run.
    destruct (IH w1) as (ps & w' & -> & Hw'). simpl.
    eexists _, w'. rewrite app_nil_r. split; [done|].
    rewrite Hw', Hf. destruct (faults w); simpl; by rewrite ?drop_nil.
Qed.

Lemma mapM_settle_run (ps : list Pending) : ∀ w,
  ∃ r t, mapM settle ps w = (r, w, t) ∧ calls t = [] ∧ toasts t = []
         ∧ ∀ ev, ev ∈ t → ∃ c f, ev = Settle c f.
Proof.
  induction ps as [|p ps IH]; intros w; simpl.
  - exists (Normal []), []. repeat split; try done. by intros ev ?%elem_of_nil.
  - rewrite bind_run. unfold settle at 1.
    assert (∀ t : list Event, (∀ ev, ev ∈ t → ∃ c f, ev = Settle c f) →
            ∀ ev, ev ∈ Settle (p_call p) (failure (p_result p)) :: t →
                  ∃ c f, ev = Settle c f) as Hcons.
    { intros t Ht ev [->|Hin]%elem_of_cons; eauto. }
    destruct (p_result p) as [r|e].
    + rewrite bind_run. destruct (IH w) as (r' & t & -> & Hc & Ht & Hs).
      destruct r' as [k|e]; simpl; eexists _, _; (split; [done|]);
        rewrite ?app_nil_r; (split; [done|]); (split; [done|]); by apply Hcons.
    + eexists _, _. split; [done|]. split; [done|]. split; [done|].
      apply Hcons. by intros ev ?%elem_of_nil.
Qed.

Lemma calls_app (t1 t2 : list Event) : calls (t1 ++ t2) = calls t1 ++ calls t2.
Proof. apply omap_app. Qed.

Lemma toasts_app (t1 t2 : list Event) : toasts (t1 ++ t2) = toasts t1 ++ toasts t2.
Proof. apply omap_app. Qed.

Lemma calls_issues {A} (f : A → Call) l : calls (map (λ a, Issue (f a)) l) = map f l.
Proof. induction l; simpl; [done|]. unfold calls in *. simpl. by f_equal. Qed.

Lemma toasts_issues {A} (f : A → Call) l : toasts (map (λ a, Issue (f a)) l) = [].
Proof. induction l; simpl; done. Qed.

(** The trace of [saveAnalyticsData]: every request goes out, then come
    settlements only, then at most a line on the console. *)
Lemma saveAnalyticsData_trace user fileId sheets w :
  ∃ t, trace (saveAnalyticsData (Some user) fileId sheets) w
       = map (λ sheet, Issue (UpsertAnalytics (analyticsPayload user fileId sheet))) sheets ++ t
       ∧ calls t = [] ∧ toasts t = [].
Proof.
  unfold saveAnalyticsData, trace, try_catch. rewrite bind_run.
  destruct (mapM_issue_run (Some (user_id user))
              (λ sheet, UpsertAnalytics (analyticsPayload user fileId sheet)) sheets w)
    as (ps & w' & -> & _).
  rewrite bind_run.
  destruct (mapM_settle_run ps w') as (r & t & -> & Hc & Ht & _).
  destruct r as [k|e]; simpl.
  - exists (t ++ []). rewrite calls_app, toasts_app, Hc, Ht. by repeat split.
  - exists (t ++ [ConsoleError "Failed to save analytics data:" e]).
    rewrite calls_app, toasts_app, Hc, Ht, <- app_assoc. by repeat split.
Qed.

Lemma in_flight_issues {A} (f : A → Call) (l : list A) : ∀ n rest,
  foldr max 0 (in_flight n (map (λ a, Issue (f a)) l ++ rest))
  = max (if l is [] then 0 else n + length l)
        (foldr max 0 (in_flight (n + length l) rest)).
Proof.
  induction l as [|a l IH]; intros n rest; simpl.
  - by rewrite Nat.add_0_r.
  - rewrite IH. replace (S n + length l) with (n + S (length l)) by lia.
    destruct l; simpl; lia.
Qed.

Lemma in_flight_no_issue (t : list Event) : ∀ n,
  calls t = [] → foldr max 0 (in_flight n t) ≤ n.
Proof.
  induction t as [|ev t IH]; intros n Hc; simpl; [lia|].
  destruct ev; try discriminate Hc;
    simpl; (etrans; [apply Nat.max_lub; [|apply IH; exact Hc]|]); lia.
Qed.

Lemma saveAnalyticsData_in_flight user fileId sheets w :
  max_in_flight (trace (saveAnalyticsData (Some user) fileId sheets) w) = length sheets.
Proof.
  destruct (saveAnalyticsData_trace user fileId sheets w) as (t & -> & Hc & _).
  unfold max_in_flight. rewrite in_flight_issues. simpl.
  pose proof (in_flight_no_issue t (length sheets) Hc).
  destruct sheets; simpl in *; lia.
Qed.

Lemma saveAnalyticsData_no_toast user fileId sheets w :
  toasts (trace (saveAnalyticsData user fileId sheets) w) = [].
Proof.
  destruct user as [user|]; [|done].
  destruct (saveAnalyticsData_trace user fileId sheets w) as (t & -> & _ & Ht).
  by rewrite toasts_app, toasts_issues, Ht.
Qed.

(** C3, amended: [onDrop], [handleDownload], [handleDelete], [loadFileData]
    and [fetchFiles] await each backend call before they send the next, so
    none of them ever has two requests in flight; [saveAnalyticsData] sends
    one upsert per sheet and awaits them together, so for a signed-in user
    it has as many requests in flight at once as there are sheets. *)
Theorem one_request_at_a_time_except_saveAnalyticsData :
  (∀ user now files w, max_in_flight (trace (onDrop user now files) w) ≤ 1)
  ∧ (∀ user file w, max_in_flight (trace (handleDownload user file) w) ≤ 1)
  ∧ (∀ user file w, max_in_flight (trace (handleDelete user file) w) ≤ 1)
  ∧ (∀ XLSX_read user fileName0 w,
       max_in_flight (trace (loadFileData XLSX_read user fileName0) w) ≤ 1)
  ∧ (∀ user w, max_in_flight (trace (fetchFiles user) w) ≤ 1)
  ∧ (∀ user fileId sheets w,
       max_in_flight (trace (saveAnalyticsData (Some user) fileId sheets) w)
       = length sheets).
Proof.
  repeat split; intros.
  - apply onDrop_sequential.
  - apply handleDownload_sequential.
  - apply handleDelete_sequential.
  - apply loadFileData_sequential.
  - apply fetchFiles_sequential.
  - apply saveAnalyticsData_in_flight.
Qed.

(** C4, amended: in [onDrop], [handleDownload], [handleDelete],
    [loadFileData] and [fetchFiles] a backend call that fails is followed by
    a destructive toast, and so is a workbook that [XLSX.read] cannot parse;
    [saveAnalyticsData] never shows a toast, whatever becomes of its calls. *)
Theorem failures_are_toasted_except_in_saveAnalyticsData :
  (∀ user now files w,
     failures (trace (onDrop user now files) w) ≠ [] →
     notified (trace (onDrop user now files) w))
  ∧ (∀ user file w,
       failures (trace (handleDownload user file) w) ≠ [] →
       notified (trace (handleDownload user file) w))
  ∧ (∀ user file w,
       failures (trace (handleDelete user file) w) ≠ [] →
       notified (trace (handleDelete user file) w))
  ∧ (∀ XLSX_read user fileName0 w,
       failures (trace (loadFileData XLSX_read user fileName0) w) ≠ [] →
       notified (trace (loadFileData XLSX_read user fileName0) w))
  ∧ (∀ user w,
       failures (trace (fetchFiles user) w) ≠ [] →
       notified (trace (fetchFiles user) w))
  ∧ (∀ XLSX_read arrayBuffer w,
       XLSX_read arrayBuffer = None →
       notified (trace (parseExcelFile XLSX_read arrayBuffer) w))
  ∧ (∀ user fileId sheets w,
       toasts (trace (saveAnalyticsData user fileId sheets) w) = []).
Proof.
  repeat split; intros.
  - by apply onDrop_notifies.
  - by apply handleDownload_notifies.
  - by apply handleDelete_notifies.
  - by apply loadFileData_notifies.
  - by apply fetchFiles_notifies.
  - by apply parseExcelFile_notifies.
  - apply saveAnalyticsData_no_toast.
Qed.

(** *** What is stored *)

Lemma keepHeader_nonEmptyHeader (h : value) : keepHeader h = nonEmptyHeader h.
Proof. unfold keepHeader, nonEmptyHeader. by destruct (truthy h). Qed.

Lemma filterHeaders_nonEmpty (headers : jsarray) :
  filterHeaders headers = filter (λ h, nonEmptyHeader h = true) (headerCells headers).
Proof.
  unfold filterHeaders, headerCells.
  induction (omap id headers) as [|h l IH]; [done|].
  rewrite !filter_cons, IH, keepHeader_nonEmptyHeader.
  by repeat case_decide.
Qed.

Lemma take_min {A} n (l : list A) : take (min n (length l)) l = take n l.
Proof.
  destruct (Nat.le_gt_cases n (length l)).
  - by rewrite Nat.min_l.
  - rewrite Nat.min_r by lia. by rewrite !firstn_all2 by lia.
Qed.

Lemma payload_is_summary user fileId sheetName headers rows :
  analyticsPayload user fileId
    {| name := sheetName; data := map (formatRow headers) rows;
       columns := filterHeaders headers |}
  = {| up_id := None; up_user_id := user_id user; up_file_id := fileId;
       up_sheet_name := sheetName; up_data := summary headers rows |}.
Proof.
  unfold analyticsPayload, summary. cbn [name data columns].
  by rewrite filterHeaders_nonEmpty, length_map, firstn_map, take_min.
Qed.

(** What [saveAnalyticsData] submits for the sheets [parseExcelFile] made is
    the summary of each sheet that has rows. *)
Lemma payloads_are_summaries user fileId workbook :
  map (analyticsPayload user fileId) (parseSheets workbook) = summaries user fileId workbook.
Proof.
  unfold parseSheets, summaries.
  induction (SheetNames workbook) as [|n ns IH]; [done|].
  cbn [flat_map]. rewrite map_app, IH. f_equal.
  unfold parseSheet. destruct (sheet_to_json workbook n) as [|headers rows]; [done|].
  cbn [map]. by rewrite payload_is_summary.
Qed.

Lemma allowed_insert_own_analytics uid :
  Rls.allowed Rls.analytics_data Rls.INSERT (Some uid) uid = true.
Proof. unfold Rls.allowed, Rls.permits. simpl. by rewrite N.eqb_refl. Qed.

Lemma upsert_without_id_inserts uid p b :
  up_user_id p = uid → up_id p = None → file_exists (up_file_id p) b = true →
  upsert_analytics (Some uid) p b = (ok NoData, add_analytics (next_uuid b) p b).
Proof.
  intros Hu Hid Hfile. unfold upsert_analytics, file_exists in *.
  by rewrite Hu, allowed_insert_own_analytics, Hfile, Hid.
Qed.

Lemma mapM_issue_persists user fileId sheets : ∀ b,
  file_exists fileId b = true →
  ∃ ps b',
    mapM (λ sheet, issue (Some (user_id user))
                     (UpsertAnalytics (analyticsPayload user fileId sheet)))
      sheets {| backend := b; faults := [] |}
    = (Normal ps, {| backend := b'; faults := [] |},
       map (λ sheet, Issue (UpsertAnalytics (analyticsPayload user fileId sheet))) sheets)
    ∧ map stored (analytics_data b')
      = map stored (analytics_data b)
        ++ map (λ sheet, submitted (analyticsPayload user fileId sheet)) sheets
    ∧ excel_files b' = excel_files b
    ∧ objects b' = objects b.
Proof.
  induction sheets as [|sheet sheets IH]; intros b Hfile; simpl.
  - exists [], b. by rewrite app_nil_r.
  - rewrite bind_run. unfold issue at 1. unfold exchange. simpl.
    rewrite (upsert_without_id_inserts (user_id user)) by done.
    rewrite bind_run.
    destruct (IH (add_analytics (next_uuid b) (analyticsPayload user fileId sheet) b))
      as (ps & b' & -> & Hrows & Hfiles & Hobjs); [done|].
    simpl. eexists _, b'. rewrite app_nil_r. split; [done|].
    rewrite Hrows, Hfiles, Hobjs. simpl. rewrite map_app, <- app_assoc. done.
Qed.

Lemma saveAnalyticsData_persists user fileId sheets b :
  file_exists fileId b = true →
  let b' := backend (world_after (saveAnalyticsData (Some user) fileId sheets)
                       {| backend := b; faults := [] |}) in
  map stored (analytics_data b')
  = map stored (analytics_data b)
    ++ map (λ sheet, submitted (analyticsPayload user fileId sheet)) sheets
  ∧ excel_files b' = excel_files b.
Proof.
  intros Hfile. unfold saveAnalyticsData, world_after, try_catch. rewrite bind_run.
  destruct (mapM_issue_persists user fileId sheets b Hfile)
    as (ps & b' & -> & Hrows & Hfiles & _).
  rewrite bind_run.
  destruct (mapM_settle_run ps {| backend := b'; faults := [] |}) as (r & t & -> & _).
  by destruct r.
Qed.

(** C5, amended: for a workbook that [XLSX.read] parses, [parseExcelFile]
    hands the parsed sheets to [saveAnalyticsData], which submits for every
    sheet that has rows one payload holding exactly: as columns the header
    cells that are truthy and not blank once trimmed, as they stand (not
    trimmed); as rowCount the number of rows after the header row; as
    sampleData the first min(5, rowCount) formatted rows. When the file
    exists and the backend answers every call these payloads are the rows
    added to [analytics_data]. *)
Theorem analytics_rows_hold_the_sheet_summary
    (XLSX_read : string → option Workbook) user fileId arrayBuffer workbook b :
  XLSX_read arrayBuffer = Some workbook →
  file_exists fileId b = true →
  let w := {| backend := b; faults := [] |} in
  let save := saveAnalyticsData (Some user) fileId (parseSheets workbook) in
  (parseExcelFile XLSX_read arrayBuffer w).1.1 = Normal (Some (parseSheets workbook))
  ∧ calls (trace save w) = map UpsertAnalytics (summaries user fileId workbook)
  ∧ map stored (analytics_data (backend (world_after save w)))
    = map stored (analytics_data b) ++ map submitted (summaries user fileId workbook).
Proof.
  intros Hread Hfile w save. subst w save. repeat split.
  - unfold parseExcelFile. unfold_handler. by rewrite Hread.
  - destruct (saveAnalyticsData_trace user fileId (parseSheets workbook)
                {| backend := b; faults := [] |}) as (t & -> & Hc & _).
    rewrite calls_app, Hc, app_nil_r.
    rewrite (calls_issues (λ sheet, UpsertAnalytics (analyticsPayload user fileId sheet))).
    by rewrite <- payloads_are_summaries, map_map.
  - destruct (saveAnalyticsData_persists user fileId (parseSheets workbook) b Hfile)
      as [-> _].
    by rewrite <- payloads_are_summaries, map_map.
Qed.

End AnalyticsFacts.

(** ** ChartGenerator *)

Section ChartFacts.
Context `{JsRuntime}.

Lemma generateChartData_length xAxis0 yAxis0 (data0 : list object) :
  length (generateChartData xAxis0 yAxis0 data0) ≤ 20.
Proof. unfold generateChartData. apply firstn_le_length. Qed.

Lemma effect_invariant (c : Chart) :
  length (chartData c) ≤ 20 → chart_invariant (effect c).
Proof.
  intros Hlen. unfold effect, chart_invariant.
  destruct (String.eqb_spec (xAxis c) "") as [Hx|Hx]; simpl; [by split|].
  destruct (String.eqb_spec (yAxis c) "") as [Hy|Hy]; simpl; [by split|].
  destruct (chart_data c) as [|row rows] eqn:Hd; simpl; [by split|].
  split; [apply generateChartData_length | done].
Qed.

Lemma mount_invariant fileName0 (data0 : list object) :
  chart_invariant (effect (mount fileName0 data0)).
Proof. apply effect_invariant. simpl. lia. Qed.

Lemma step_invariant (c : Chart) (ev : ChartEvent) :
  chart_invariant c → chart_invariant (step c ev).
Proof.
  intros [Hlen Hgen]. destruct ev; simpl; try by apply effect_invariant.
  by split.
Qed.

Lemma after_invariant fileName0 (data0 : list object) (evs : list ChartEvent) :
  chart_invariant (after fileName0 data0 evs).
Proof.
  unfold after. generalize (mount_invariant fileName0 data0).
  generalize (effect (mount fileName0 data0)).
  induction evs as [|ev evs IH]; intros c Hc; simpl; [done|].
  apply IH. by apply step_invariant.
Qed.

Lemma effect_selection (c : Chart) :
  fileName (effect c) = fileName c ∧ selectedChart (effect c) = selectedChart c
  ∧ xAxis (effect c) = xAxis c ∧ yAxis (effect c) = yAxis c.
Proof. unfold effect. by destruct (_ && _). Qed.

(** C7: in every state the component can reach, the object [downloadChart]
    serialises has exactly the six fields fileName, chartType, xAxis, yAxis,
    data and generatedAt, in this order; chartType, xAxis and yAxis are the
    current selections (the last value given to each setter), data is the
    current chart data, which has at most 20 entries and is what
    [generateChartData] makes of the current axes and rows once both axes
    are chosen and there are rows. *)
Theorem downloadChart_exports_six_fields
    fileName0 (data0 : list object) (evs : list ChartEvent) (generatedAt : string) :
  let c := after fileName0 data0 evs in
  let cfg := (downloadChart c generatedAt).1.2 in
  map fst cfg = ["fileName"; "chartType"; "xAxis"; "yAxis"; "data"; "generatedAt"]
  ∧ field "fileName" cfg = Some (CString (fileName c))
  ∧ field "chartType" cfg = Some (CString (selectedChart c))
  ∧ field "xAxis" cfg = Some (CString (xAxis c))
  ∧ field "yAxis" cfg = Some (CString (yAxis c))
  ∧ field "data" cfg = Some (CItems (chartData c))
  ∧ field "generatedAt" cfg = Some (CString generatedAt)
  ∧ length (chartData c) ≤ 20
  ∧ (xAxis c ≠ "" → yAxis c ≠ "" → chart_data c ≠ [] →
     chartData c = generateChartData (xAxis c) (yAxis c) (chart_data c))
  ∧ (∀ t, selectedChart (step c (SetSelectedChart t)) = t)
  ∧ (∀ x, xAxis (step c (SetXAxis x)) = x)
  ∧ (∀ y, yAxis (step c (SetYAxis y)) = y).
Proof.
  intros c cfg. destruct (after_invariant fileName0 data0 evs) as [Hlen Hgen].
  fold c in Hlen, Hgen. subst cfg. unfold downloadChart, chartConfig, field. simpl.
  repeat split; try done.
  - intros x. simpl. apply effect_selection.
  - intros y. simpl. apply effect_selection.
Qed.

(** *** generateChartData when the axes do not collide with [name] and [value] *)

Lemma yValue_number yAxis0 (row : object) : ∃ d, yValue yAxis0 row = VNum (Num d).
Proof.
  unfold yValue, or_else. destruct (parseFloat (get row yAxis0)) as [|d]; simpl.
  - by exists zero.
  - destruct (isZero d); simpl; eauto.
Qed.

Lemma chartItem_x xAxis0 yAxis0 (row : object) :
  xAxis0 ≠ yAxis0 → xAxis0 ≠ "value" →
  get (chartItem xAxis0 yAxis0 row) xAxis0 = get row xAxis0.
Proof.
  intros Hxy Hxv. unfold chartItem. unfold get at 1.
  rewrite lookup_insert_ne by done.
  destruct (decide ("name" = xAxis0)) as [<-|Hn].
  - by rewrite lookup_insert_eq.
  - rewrite lookup_insert_ne by done. rewrite lookup_insert_ne by done.
    by rewrite lookup_insert_eq.
Qed.

Lemma chartItem_y xAxis0 yAxis0 (row : object) :
  yAxis0 ≠ "name" →
  get (chartItem xAxis0 yAxis0 row) yAxis0 = yValue yAxis0 row.
Proof.
  intros Hyn. unfold chartItem. unfold get at 1.
  destruct (decide ("value" = yAxis0)) as [<-|Hv].
  - by rewrite lookup_insert_eq.
  - rewrite lookup_insert_ne by done. rewrite lookup_insert_ne by done.
    by rewrite lookup_insert_eq.
Qed.

Lemma keepItem_chartItem xAxis0 yAxis0 (row : object) :
  xAxis0 ≠ yAxis0 → xAxis0 ≠ "value" → yAxis0 ≠ "name" →
  keepItem xAxis0 yAxis0 (chartItem xAxis0 yAxis0 row) = truthy (get row xAxis0).
Proof.
  intros Hxy Hxv Hyn. unfold keepItem.
  rewrite chartItem_x, chartItem_y by done.
  destruct (yValue_number yAxis0 row) as [d ->]. simpl. apply andb_true_r.
Qed.

Lemma filter_map_keep {A B} (f : A → B) (p : B → bool) (q : A → bool) (l : list A) :
  (∀ a, p (f a) = q a) →
  filter (λ b, p b = true) (map f l) = map f (filter (λ a, q a = true) l).
Proof.
  intros Hpq. induction l as [|a l IH]; [done|].
  simpl. rewrite !filter_cons, IH, Hpq. by repeat case_decide.
Qed.

(** X1: when the two axes are different columns, x is not the column
    "value" and y is not the column "name", the chart data is the first 20
    of the rows whose x cell is truthy, in order (the [isNaN] test removes
    none), and the y of every point is a number that is not NaN. *)
Lemma generateChartData_without_collision xAxis0 yAxis0 (data0 : list object) :
  xAxis0 ≠ yAxis0 → xAxis0 ≠ "value" → yAxis0 ≠ "name" →
  generateChartData xAxis0 yAxis0 data0
  = take 20 (map (chartItem xAxis0 yAxis0)
               (filter (λ row, truthy (get row xAxis0) = true) data0))
  ∧ (∀ item, item ∈ generateChartData xAxis0 yAxis0 data0 →
       ∃ d, get item yAxis0 = VNum (Num d))
  ∧ length (generateChartData xAxis0 yAxis0 data0) ≤ 20.
Proof.
  intros Hxy Hxv Hyn.
  assert (generateChartData xAxis0 yAxis0 data0
          = take 20 (map (chartItem xAxis0 yAxis0)
                       (filter (λ row, truthy (get row xAxis0) = true) data0))) as Heq.
  { unfold generateChartData. f_equal.
    apply (filter_map_keep (chartItem xAxis0 yAxis0) (keepItem xAxis0 yAxis0)).
    intros row. by apply keepItem_chartItem. }
  split; [done|]. split; [|apply generateChartData_length].
  intros item. rewrite Heq. intros Hin%subseteq_take%list_elem_of_In%in_map_iff.
  destruct Hin as (row & <- & _). rewrite chartItem_y by done. apply yValue_number.
Qed.

End ChartFacts.

(** ** More on the policies and on parsed sheets *)

Section MoreRlsFacts.

(** X2: row-level security lets a command through in exactly two cases:
    it is a SELECT on [profiles] (any caller, signed in or not), or the
    caller is the owner of the row and the command is one the migration
    has a policy for. In particular nobody can UPDATE or DELETE a row of
    [analytics_data] or DELETE a profile. *)
Theorem allowed_iff_profile_read_or_granted_owner t c auth_uid user_id :
  Rls.allowed t c auth_uid user_id = true
  ↔ (t = Rls.profiles ∧ c = Rls.SELECT)
    ∨ (auth_uid = Some user_id ∧ granted_to_owner t c = true).
Proof.
  unfold Rls.allowed, Rls.policies, Rls.applies, Rls.permits.
  destruct t, c; simpl; try (split; [discriminate | by intros [[??]|[??]]]);
    try (split; [by left | done]);
    destruct auth_uid as [uid|]; simpl; rewrite ?orb_false_r, ?N.eqb_eq;
    try (split; [discriminate | by intros [[??]|[??]]]);
    (split; [intros ->; by right | intros [[??]|[[=] _]]; done]).
Qed.

End MoreRlsFacts.

Section MoreParseFacts.
Context `{JsRuntime}.

Lemma forEachHeader_dom (headers : jsarray) : ∀ i row (obj : object),
  dom (forEachHeader headers i row obj)
  = (dom obj ∪ list_to_set (filter (λ k, k ≠ "__proto__") (toString <$> omap id headers))
     : gset string).
Proof.
  induction headers as [|[header|] rest IH]; intros i row obj; simpl.
  - set_solver.
  - rewrite IH, filter_cons. unfold assign.
    destruct (decide (toString header = "__proto__")) as [Heq|Hne].
    + by rewrite decide_False by (by intros ?).
    + rewrite decide_True by done. rewrite dom_insert_L. set_solver.
  - apply IH.
Qed.



Lemma formatRow_dom (headers row : jsarray) :
  dom (formatRow headers row)
  = (list_to_set (filter (λ k, k ≠ "__proto__") (toString <$> omap id headers))
     : gset string).
Proof. unfold formatRow. rewrite forEachHeader_dom. set_solver. Qed.


Lemma filterHeaders_elem (headers : jsarray) column :
  column ∈ filterHeaders headers →
  keepHeader column = true ∧ ∃ j, headers !! j = Some (Some column).
Proof.
  unfold filterHeaders. rewrite list_elem_of_filter, list_elem_of_omap.
  intros [Hkeep (o & Ho & Hid)]. split; [done|].
  simpl in Hid. subst o. by apply list_elem_of_lookup in Ho.
Qed.

(** X4: in a parsed sheet every column is a truthy header. Unless the
    column is named ["__proto__"], every formatted row has a value of its
    own under it, the empty string or a truthy cell, and the data preview
    ([row[column]?.toString() || '']) shows that value's text; under
    ["__proto__"] no row has a value of its own. *)
Theorem preview_cell_shows_the_stored_value wb sheet column row :
  sheet ∈ parseSheets wb → column ∈ columns sheet → row ∈ data sheet →
  truthy column = true
  ∧ (toString column ≠ "__proto__" →
     ∃ v, row !! toString column = Some v
          ∧ (v = VStr "" ∨ truthy v = true)
          ∧ cellText row column = Some (toString v))
  ∧ (toString column = "__proto__" →
     row !! toString column = None ∧ cellText row column = None).
Proof.
  intros Hsheet Hcol Hrow.
  destruct (parseSheets_elem wb sheet Hsheet) as (headers & rows & _ & _ & Hdata & Hcols).
  rewrite Hcols in Hcol. apply filterHeaders_elem in Hcol as [Hkeep (j & Hj)].
  assert (truthy column = true) as Htruthy.
  { unfold keepHeader in Hkeep. by destruct (truthy column). }
  split; [done|].
  rewrite Hdata in Hrow. apply list_elem_of_In, in_map_iff in Hrow as (raw & <- & _).
  split.
  - intros Hproto.
    assert (toString column ∈ dom (formatRow headers raw)) as [v Hv]%elem_of_dom.
    { rewrite formatRow_dom.
      apply elem_of_list_to_set, list_elem_of_filter. split; [done|].
      apply list_elem_of_fmap. exists column. split; [done|].
      apply list_elem_of_omap. exists (Some column). split; [|done].
      by apply list_elem_of_lookup_2 in Hj. }
    exists v. split; [done|].
    assert (v = VStr "" ∨ truthy v = true) as Hv'.
    { unfold formatRow in Hv.
      apply forEachHeader_lookup in Hv as [Hv | (j' & h & _ & _ & ->)].
      - by rewrite lookup_empty in Hv.
      - apply or_else_empty. }
    split; [done|]. unfold cellText. rewrite Hv.
    destruct Hv' as [->|Hv']; [done|]. by destruct v.
  - intros Hproto.
    assert (formatRow headers raw !! toString column = None) as Hnone.
    { rewrite Hproto. unfold formatRow. by rewrite forEachHeader_proto. }
    split; [done|]. unfold cellText. rewrite Hnone, Hproto. done.
Qed.

End MoreParseFacts.

(** ** More on the handlers *)

Section OwnRows.

Lemma allowed_own_file c uid : Rls.allowed Rls.excel_files c (Some uid) uid = true.
Proof. unfold Rls.allowed, Rls.permits. destruct c; simpl; by rewrite N.eqb_refl. Qed.

End OwnRows.

Ltac exec_own :=
  unfold_handler;
  repeat first
    [ rewrite allowed_own_file
    | rewrite outcome_tail
    | progress unfold storage_upload, storage_download, storage_remove,
        insert_file, delete_file, select_files
    | exec_step ].

Ltac finish_cases :=
  repeat split; intros;
  repeat match goal with
         | H : _ ∧ _ |- _ => destruct H
         | H : bool_decide _ = true |- _ => apply bool_decide_eq_true in H
         | |- bool_decide _ = true => apply bool_decide_eq_true
         end;
  try done; try congruence; try (by rewrite lookup_insert_eq); try set_solver.

Section MoreHandlerFacts.
Context `{JsRuntime}.

Lemma upload_succeeds_outcome w path :
  upload_succeeds w path
  = match outcome w 0 with
    | Succeeds => bool_decide (objects (backend w) !! path = None)
    | _ => false
    end.
Proof. unfold upload_succeeds, outcome. by destruct (faults w) as [|[| |] ?]. Qed.

(** X5: [onDrop] reaches the backend only for a signed-in user whose first
    dropped file has one of the three accepted MIME types; otherwise it
    sends nothing and leaves the backend as it is. Files after the first
    are never looked at. *)
Theorem onDrop_reaches_the_backend_only_for_an_accepted_file user now files w :
  (calls (trace (onDrop user now files) w) = []
   ↔ user = None ∨ files = []
     ∨ ∃ file rest, files = file :: rest ∧ includes validTypes (file_type file) = false)
  ∧ (calls (trace (onDrop user now files) w) = [] → world_after (onDrop user now files) w = w)
  ∧ onDrop user now files = onDrop user now (take 1 files).
Proof.
  unfold onDrop. destruct user as [user|]; [|by repeat split; auto].
  destruct files as [|file rest]; [by repeat split; auto|].
  cbn [firstn].
  destruct (includes validTypes (file_type file)) eqn:Hvalid.
  - repeat split; try done.
    + exec; discriminate.
    + intros [?|[?|(f & r & [= <- <-] & Hf)]]; congruence.
    + exec; discriminate.
  - repeat split; try done.
    intros _. right. right. by exists file, rest.
Qed.

(** X6: for an accepted file, [onDrop] shows its success toast and calls
    [onUploadComplete] exactly when neither backend call failed, that is
    when the upload went through to a free path and the insert went
    through; then the object is in the bucket with the file's content and
    one row describing it has been added to [excel_files]. When a call
    fails no row is added. *)
Theorem onDrop_succeeds_iff_both_calls_do user now file rest w :
  includes validTypes (file_type file) = true →
  let path := pretty (user_id user) +:+ "/" +:+ pretty now +:+ "-" +:+ file_name file in
  let run := onDrop (Some user) now (file :: rest) in
  let t := trace run w in
  let b' := backend (world_after run w) in
  (failures t = [] ↔ upload_succeeds w path = true ∧ outcome w 1 = Succeeds)
  ∧ (success_toast "File uploaded successfully!" ∈ toasts t ↔ failures t = [])
  ∧ (OnUploadComplete ∈ t ↔ failures t = [])
  ∧ (failures t = [] →
       objects b' !! path = Some (content file)
       ∧ excel_files b' = excel_files (backend w) ++ [uploaded_row user now file (backend w)]
       ∧ analytics_data b' = analytics_data (backend w))
  ∧ (failures t ≠ [] → excel_files b' = excel_files (backend w)).
Proof.
  intros Hvalid path run t b'. subst t b' run. unfold onDrop. rewrite Hvalid.
  rewrite upload_succeeds_outcome. fold path.
  exec_own; finish_cases.
Qed.

(** X7: when the upload of an accepted file goes through and the insert
    of its row then fails, [onDrop] shows a destructive toast and stops:
    the object stays in the bucket, [excel_files] has no row for it, and no
    call is sent to take the object away again. *)
Theorem onDrop_leaves_the_object_when_the_insert_fails user now file rest w :
  includes validTypes (file_type file) = true →
  let path := pretty (user_id user) +:+ "/" +:+ pretty now +:+ "-" +:+ file_name file in
  let run := onDrop (Some user) now (file :: rest) in
  upload_succeeds w path = true →
  outcome w 1 ≠ Succeeds →
  objects (backend (world_after run w)) !! path = Some (content file)
  ∧ excel_files (backend (world_after run w)) = excel_files (backend w)
  ∧ length (calls (trace run w)) = 2
  ∧ (∀ paths, StorageRemove paths ∉ calls (trace run w))
  ∧ notified (trace run w)
  ∧ OnUploadComplete ∉ trace run w.
Proof.
  intros Hvalid path run. subst run. unfold onDrop. rewrite Hvalid.
  rewrite upload_succeeds_outcome. fold path.
  exec_own; intros Hup Hins; try done;
    try (by apply bool_decide_eq_true in Hup; congruence);
    (split; [by rewrite lookup_insert_eq|]); (split; [done|]); (split; [done|]);
    (split; [set_solver|]); (split; [solve_notified | set_solver]).
Qed.

(** X8: whatever becomes of their backend calls, the handlers undo their
    busy state last: [onDrop] (for an accepted file) ends with
    [setUploading(false)] and [setUploadProgress(0)], [handleDelete] (signed
    in) with [setDeletingId(null)], [loadFileData] (signed in) and
    [fetchFiles] (signed in) with [setLoading(false)]. *)
Theorem handlers_reset_their_busy_state :
  (∀ user now file rest w,
     includes validTypes (file_type file) = true →
     [SetUploading false; SetUploadProgress 0]
       `suffix_of` trace (onDrop (Some user) now (file :: rest)) w)
  ∧ (∀ user file w,
       [SetDeletingId None] `suffix_of` trace (handleDelete (Some user) file) w)
  ∧ (∀ XLSX_read user fileName0 w,
       [SetLoading false] `suffix_of` trace (loadFileData XLSX_read (Some user) fileName0) w)
  ∧ (∀ user w, [SetLoading false] `suffix_of` trace (fetchFiles (Some user)) w).
Proof.
  repeat split.
  - intros user now file rest w Hvalid. unfold onDrop. rewrite Hvalid.
    exec; repeat first [ reflexivity | apply suffix_cons_r ].
  - intros user file w. unfold handleDelete.
    exec; repeat first [ reflexivity | apply suffix_cons_r ].
  - intros XLSX_read user fileName0 w. unfold loadFileData, parseExcelFile.
    exec; try destruct (XLSX_read _); simpl;
      repeat first [ reflexivity | apply suffix_cons_r ].
  - intros user w. unfold fetchFiles.
    exec; repeat first [ reflexivity | apply suffix_cons_r ].
Qed.

End MoreHandlerFacts.

(** ** More on saveAnalyticsData and the viewer *)

Section MoreAnalyticsFacts.
Context `{JsRuntime}.















Lemma upsert_keeps_files auth_uid p b :
  excel_files (upsert_analytics auth_uid p b).2 = excel_files b
  ∧ objects (upsert_analytics auth_uid p b).2 = objects b.
Proof.
  unfold upsert_analytics.
  repeat match goal with
         | |- context [if ?c then _ else _] => destruct c
         | |- context [match up_id ?p with _ => _ end] => destruct (up_id p)
         end; done.
Qed.

Lemma mapM_issue_keeps_files user fileId sheets : ∀ w,
  ∃ ps w',
    mapM (λ sheet, issue (Some (user_id user))
                     (UpsertAnalytics (analyticsPayload user fileId sheet))) sheets w
    = (Normal ps, w',
       map (λ sheet, Issue (UpsertAnalytics (analyticsPayload user fileId sheet))) sheets)
    ∧ excel_files (backend w') = excel_files (backend w)
    ∧ objects (backend w') = objects (backend w).
Proof.
  induction sheets as [|sheet sheets IH]; intros w.
  - by exists [], w.
  - cbn [mapM]. rewrite bind_run. unfold issue at 1.
    assert (excel_files (backend (exchange (Some (user_id user))
              (UpsertAnalytics (analyticsPayload user fileId sheet)) w).2)
            = excel_files (backend w)
            ∧ objects (backend (exchange (Some (user_id user))
                (UpsertAnalytics (analyticsPayload user fileId sheet)) w).2)
              = objects (backend w)) as [Hf Ho].
    { rewrite exchange_outcome. destruct (outcome w 0); simpl; try done.
      apply upsert_keeps_files. }
    destruct (exchange _ _ w) as [res w1]. simpl in Hf, Ho. rewrite bind_run.
    destruct (IH w1) as (ps & w' & -> & Hf' & Ho'). simpl.
    eexists _, w'. rewrite app_nil_r. split; [done|]. by rewrite Hf', Ho'.
Qed.

Lemma saveAnalyticsData_keeps_files user fileId sheets w :
  excel_files (backend (world_after (saveAnalyticsData user fileId sheets) w))
  = excel_files (backend w)
  ∧ objects (backend (world_after (saveAnalyticsData user fileId sheets) w))
    = objects (backend w).
Proof.
  destruct user as [user|]; [|done].
  unfold saveAnalyticsData, world_after, try_catch. rewrite bind_run.
  destruct (mapM_issue_keeps_files user fileId sheets w) as (ps & w' & -> & Hf & Ho).
  rewrite bind_run. destruct (mapM_settle_run ps w') as (r & t & -> & _).
  by destruct r.
Qed.

#[local] Arguments saveAnalyticsData : simpl never.

(** X11: the viewer sends upserts only for a file it could download and
    parse. Mounted on a file, it sends the download of the user's folder
    entry of that name and then, when the download comes back with the
    object and [XLSX.read] parses it, one upsert per sheet that has rows,
    holding that sheet's summary; after a failed download or a workbook
    that does not parse it sends nothing more. *)
Theorem viewer_upserts_only_after_a_parsed_download
    (XLSX_read : string → option Workbook) user fileId fileName0 w :
  let path := pretty (user_id user) +:+ "/" +:+ fileName0 in
  calls (trace (loadFileData_task XLSX_read (Some user) fileId fileName0) w)
  = StorageDownload path
    :: match outcome w 0, objects (backend w) !! path with
       | Succeeds, Some arrayBuffer =>
           match XLSX_read arrayBuffer with
           | Some workbook => map UpsertAnalytics (summaries user fileId workbook)
           | None => []
           end
       | _, _ => []
       end.
Proof.
  intros path. unfold loadFileData_task, loadFileData, parseExcelFile. fold path.
  exec_own; try done.
  destruct (XLSX_read s) as [workbook|]; simpl; [|done].
  destruct (saveAnalyticsData_trace user fileId (parseSheets workbook)
              {| backend := backend w; faults := tail (faults w) |}) as (t & Ht & Hc & _).
  unfold trace in Ht.
  destruct (saveAnalyticsData (Some user) fileId (parseSheets workbook) _) as [[r w2] t2].
  simpl in Ht |- *. subst t2. unfold calls at 1. simpl. f_equal.
  change (calls (map (λ sheet, Issue (UpsertAnalytics (analyticsPayload user fileId sheet)))
                   (parseSheets workbook) ++ t)
          = map UpsertAnalytics (summaries user fileId workbook)).
  rewrite calls_app, Hc, app_nil_r.
  rewrite (calls_issues (λ sheet, UpsertAnalytics (analyticsPayload user fileId sheet))).
  by rewrite <- payloads_are_summaries, map_map.
Qed.

End MoreAnalyticsFacts.

(** ** Handlers one after the other *)

Section ComposedHandlerFacts.
Context `{JsRuntime}.

Lemma outcome_tail_tail b w i :
  outcome {| backend := b; faults := tail (tail (faults w)) |} i = outcome w (S (S i)).
Proof. unfold outcome. by destruct (faults w) as [|? [|? ?]]. Qed.

Lemma onDrop_world user now file rest w :
  includes validTypes (file_type file) = true →
  let path := pretty (user_id user) +:+ "/" +:+ pretty now +:+ "-" +:+ file_name file in
  upload_succeeds w path = true →
  outcome w 1 = Succeeds →
  world_after (onDrop (Some user) now (file :: rest)) w
  = {| backend :=
         {| objects := <[path := content file]> (objects (backend w));
            excel_files := excel_files (backend w) ++ [uploaded_row user now file (backend w)];
            analytics_data := analytics_data (backend w);
            next_uuid := N.succ (next_uuid (backend w));
            db_now := db_now (backend w) |};
       faults := tail (tail (faults w)) |}.
Proof.
  intros Hvalid path. unfold onDrop. rewrite Hvalid.
  rewrite upload_succeeds_outcome. fold path.
  exec_own; intros Hup Hins; try done; try congruence;
    by apply bool_decide_eq_true in Hup; congruence.
Qed.

(** X12: what is uploaded is what comes back. After [onDrop] has stored an
    accepted file, the row it wrote is in [excel_files]; [handleDownload] on
    that row saves the file's content under the file's original name, and
    the viewer's [loadFileData], given the row's [filename], receives the
    same content (as long as the environment lets that download through). *)
Theorem upload_then_download_returns_the_content
    (XLSX_read : string → option Workbook) user now file rest w :
  includes validTypes (file_type file) = true →
  let path := pretty (user_id user) +:+ "/" +:+ pretty now +:+ "-" +:+ file_name file in
  let row := uploaded_row user now file (backend w) in
  let w1 := world_after (onDrop (Some user) now (file :: rest)) w in
  upload_succeeds w path = true →
  outcome w 1 = Succeeds →
  outcome w 2 = Succeeds →
  row ∈ excel_files (backend w1)
  ∧ trace (handleDownload (Some user) row) w1
    = [ Issue (StorageDownload path); Settle (StorageDownload path) None;
        SaveLink (file_name file) (content file);
        ToastShown (success_toast "File downloaded successfully!") ]
  ∧ SetFileData (content file)
    ∈ trace (loadFileData XLSX_read (Some user) (filename row)) w1.
Proof.
  intros Hvalid path row w1 Hup Hins Hdown. subst w1.
  rewrite (onDrop_world user now file rest w Hvalid Hup Hins). fold path.
  split; [simpl; set_solver|]. split.
  - unfold handleDownload. unfold_handler.
    rewrite await_run, exchange_outcome, outcome_tail_tail, Hdown. simpl.
    unfold storage_download. simpl. fold path. rewrite lookup_insert_eq. done.
  - unfold loadFileData, parseExcelFile. unfold_handler.
    rewrite await_run, exchange_outcome, outcome_tail_tail, Hdown. simpl.
    unfold storage_download. simpl. fold path. rewrite lookup_insert_eq. simpl.
    destruct (XLSX_read (content file)); simpl; set_solver.
Qed.

Lemma uploaded_row_in_shape user now file b : app_row (uploaded_row user now file b).
Proof. by split. Qed.

Lemma onDrop_rows user now files w :
  let b' := backend (world_after (onDrop user now files) w) in
  excel_files b' = excel_files (backend w)
  ∨ ∃ user' file, excel_files b'
                  = excel_files (backend w) ++ [uploaded_row user' now file (backend w)].
Proof.
  unfold onDrop. destruct user as [user|]; [|by left].
  destruct files as [|file rest]; [by left|].
  destruct (includes validTypes (file_type file)); [|by left].
  exec_own; try (by left). right. by exists user, file.
Qed.

Lemma handleDelete_rows user file w :
  let b' := backend (world_after (handleDelete user file) w) in
  excel_files b' = excel_files (backend w)
  ∨ ∃ P (D : ∀ r, Decision (P r)), excel_files b' = filter P (excel_files (backend w)).
Proof.
  unfold handleDelete. destruct user as [user|]; [|by left].
  exec_own; try (by left); right; by eexists _, _.
Qed.

Lemma loadFileData_keeps_files (XLSX_read : string → option Workbook) user fileName0 w :
  excel_files (backend (loadFileData XLSX_read user fileName0 w).1.2)
  = excel_files (backend w).
Proof.
  unfold loadFileData, parseExcelFile. destruct user as [user|]; [|done].
  exec_own; try done. by destruct (XLSX_read _).
Qed.

Lemma loadFileData_task_keeps_files
    (XLSX_read : string → option Workbook) user fileId fileName0 w :
  excel_files (backend (world_after (loadFileData_task XLSX_read user fileId fileName0) w))
  = excel_files (backend w).
Proof.
  unfold loadFileData_task, world_after. rewrite bind_run.
  pose proof (loadFileData_keeps_files XLSX_read user fileName0 w) as Hload.
  destruct (loadFileData XLSX_read user fileName0 w) as [[[[sheets|]|e] w1] t1];
    simpl in Hload |- *; try done.
  destruct (saveAnalyticsData_keeps_files user fileId sheets w1) as [Hsave _].
  unfold world_after in Hsave.
  destruct (saveAnalyticsData user fileId sheets w1) as [[r w2] t2].
  simpl in *. congruence.
Qed.

(** X13: the handlers keep every row of [excel_files] in the shape [onDrop]
    gives it, marked "uploaded" and stored under its owner's folder and its
    own file name: from a table of such rows, no run of [onDrop],
    [handleDownload], [handleDelete], [fetchFiles] or the viewer leads to a
    table with a row of another shape (the application never updates a
    row). *)
Theorem handlers_keep_the_rows_in_shape w :
  Forall app_row (excel_files (backend w)) →
  (∀ user now files,
     Forall app_row (excel_files (backend (world_after (onDrop user now files) w))))
  ∧ (∀ user file,
       Forall app_row (excel_files (backend (world_after (handleDownload user file) w))))
  ∧ (∀ user file,
       Forall app_row (excel_files (backend (world_after (handleDelete user file) w))))
  ∧ (∀ user,
       Forall app_row (excel_files (backend (world_after (fetchFiles user) w))))
  ∧ (∀ XLSX_read user fileId fileName0,
       Forall app_row
         (excel_files
            (backend (world_after (loadFileData_task XLSX_read user fileId fileName0) w)))).
Proof.
  intros Hrows. repeat split.
  - intros user now files.
    destruct (onDrop_rows user now files w) as [->|(u & f & ->)]; [done|].
    apply Forall_app. split; [done|]. apply Forall_singleton, uploaded_row_in_shape.
  - intros user file. unfold handleDownload. by exec_own.
  - intros user file.
    destruct (handleDelete_rows user file w) as [->|(P & D & ->)]; [done|].
    rewrite Forall_forall in Hrows |- *.
    intros r [_ Hr]%list_elem_of_filter. by apply Hrows.
  - intros [user|]; [|done]. unfold fetchFiles. by exec_own.
  - intros. by rewrite loadFileData_task_keeps_files.
Qed.

(** X14: a row in that shape is addressed alike by the file list and by
    the viewer: for its owner, [loadFileData] with the row's [filename]
    asks for the same object as [handleDownload] with the row, namely the
    one at its [file_path]; its badge is the default one, and a list of
    such rows counts in full as "Analytics Ready". *)
Theorem rows_in_shape_are_read_alike
    (XLSX_read : string → option Workbook) user (r : FileRow) w :
  app_row r → f_user_id r = user_id user →
  calls (trace (loadFileData XLSX_read (Some user) (filename r)) w)
  = [StorageDownload (file_path r)]
  ∧ calls (trace (handleDownload (Some user) r) w) = [StorageDownload (file_path r)]
  ∧ getStatusBadgeVariant (status r) = "default"
  ∧ ∀ rows, Forall app_row rows → analyticsReady rows = length rows.
Proof.
  intros [Hstatus Hpath] Howner. rewrite Hpath, Howner, Hstatus. repeat split.
  - unfold loadFileData, parseExcelFile. exec_own; try done. by destruct (XLSX_read _).
  - unfold handleDownload. rewrite Hpath, Howner. by exec_own.
  - intros rows Hrows. unfold analyticsReady. f_equal.
    induction Hrows as [|r' rows' [Hs _] _ IH]; [done|].
    rewrite filter_cons. rewrite decide_True by done. by f_equal.
Qed.

#[local] Instance newer_first_total : Total newer_first.
Proof. intros a b. unfold newer_first. lia. Qed.

Lemma own_rows_visible uid (r : FileRow) :
  Rls.allowed Rls.excel_files Rls.SELECT (Some uid) (f_user_id r) = true ∧ f_user_id r = uid
  ↔ f_user_id r = uid.
Proof. split; [by intros [_ ?]|]. intros <-. split; [apply allowed_own_file | done]. Qed.

(** X15: when its query comes back, [fetchFiles] shows the rows of
    [excel_files] that belong to the signed-in user, all of them and no
    other, newest first, and sets the number of files to their number; the
    query changes nothing in the backend. When the query fails the list
    shown is not replaced and a destructive toast is shown. *)
Theorem fetchFiles_shows_own_rows_newest_first user w :
  let sel := SelectExcelFiles (user_id user) in
  let t := trace (fetchFiles (Some user)) w in
  (outcome w 0 = Succeeds →
     ∃ rows,
       t = [ Issue sel; Settle sel None; SetFiles rows; SetTotalFiles (length rows);
             SetTotalSize (foldl (λ acc file, acc + file_size file)%N 0%N rows);
             SetLoading false ]
       ∧ rows ≡ₚ filter (λ r, f_user_id r = user_id user) (excel_files (backend w))
       ∧ Sorted newer_first rows)
  ∧ (outcome w 0 ≠ Succeeds → (∀ rows, SetFiles rows ∉ t) ∧ notified t)
  ∧ backend (world_after (fetchFiles (Some user)) w) = backend w.
Proof.
  intros sel t. subst sel t. unfold fetchFiles. exec_own; repeat split; try done.
  - intros _. eexists. split; [done|]. split.
    + rewrite merge_sort_Permutation.
      by rewrite (list_filter_iff _ _ _ (own_rows_visible (user_id user))).
    + apply Sorted_merge_sort, _.
  - intros rows. set_solver.
  - solve_notified.
  - intros rows. set_solver.
  - solve_notified.
Qed.

Lemma deleted_by_own uid id (r : FileRow) :
  deleted_by (Some uid) id uid r = true ↔ f_id r = id ∧ f_user_id r = uid.
Proof.
  unfold deleted_by. rewrite !andb_true_iff, !N.eqb_eq. split.
  - by intros [[_ ?] ?].
  - intros [<- <-]. by rewrite allowed_own_file.
Qed.

Lemma handleDelete_world user file w :
  outcome w 0 = Succeeds → outcome w 1 = Succeeds →
  handleDelete (Some user) file w
  = (Normal (),
     {| backend := (delete_file (Some (user_id user)) (f_id file) (user_id user)
                      (storage_remove [file_path file] (backend w)).2).2;
        faults := tail (tail (faults w)) |},
     [ SetDeletingId (Some (f_id file));
       Issue (StorageRemove [file_path file]); Settle (StorageRemove [file_path file]) None;
       Issue (DeleteExcelFile (f_id file) (user_id user));
       Settle (DeleteExcelFile (f_id file) (user_id user)) None;
       ToastShown (success_toast "File deleted successfully!");
       OnFileDeleted; SetDeletingId None ]).
Proof.
  intros H0 H1. unfold handleDelete. unfold_handler.
  rewrite await_run, exchange_outcome, H0. simpl.
  rewrite await_run, exchange_outcome, outcome_tail, H1. done.
Qed.

Lemma filter_all {A} (P : A → Prop) `{∀ x, Decision (P x)} (l : list A) :
  (∀ x, x ∈ l → P x) → filter P l = l.
Proof.
  induction l as [|a l IH]; intros Hall; [done|].
  rewrite filter_cons, decide_True by (apply Hall, list_elem_of_here).
  f_equal. apply IH. intros x Hx. by apply Hall, list_elem_of_further.
Qed.

Lemma filter_none {A} (P : A → Prop) `{∀ x, Decision (P x)} (l : list A) :
  (∀ x, x ∈ l → ¬ P x) → filter P l = [].
Proof.
  induction l as [|a l IH]; intros Hall; [done|].
  rewrite filter_cons, decide_False by (apply Hall, list_elem_of_here).
  apply IH. intros x Hx. by apply Hall, list_elem_of_further.
Qed.

(** X16: when both calls go through, [handleDelete] on a row of the
    signed-in user, stored under the user's own folder as [onDrop] stores
    it, takes away that row, the object at its path and, by the cascade of
    the foreign key, every analytics row of that file, and nothing else:
    the rows of other files and their analytics rows stay. *)
Theorem handleDelete_removes_the_row_and_its_analytics user file w :
  outcome w 0 = Succeeds → outcome w 1 = Succeeds →
  file ∈ excel_files (backend w) → f_user_id file = user_id user → app_row file →
  let b' := backend (world_after (handleDelete (Some user) file) w) in
  excel_files b'
  = filter (λ r, ¬ (f_id r = f_id file ∧ f_user_id r = user_id user)) (excel_files (backend w))
  ∧ analytics_data b'
    = filter (λ a, a_file_id a ≠ f_id file) (analytics_data (backend w))
  ∧ objects b' = delete (file_path file) (objects (backend w))
  ∧ file ∉ excel_files b'.
Proof.
  intros H0 H1 Hin Howner _ b'. subst b'. unfold world_after.
  rewrite (handleDelete_world user file w H0 H1). simpl.
  assert (∀ r, deleted_by (Some (user_id user)) (f_id file) (user_id user) r = false
               ↔ ¬ (f_id r = f_id file ∧ f_user_id r = user_id user)) as Hkept.
  { intros r. rewrite <- deleted_by_own. by destruct (deleted_by _ _ _ r). }
  assert (filter (λ r, deleted_by (Some (user_id user)) (f_id file) (user_id user) r = false)
            (excel_files (backend w))
          = filter (λ r, ¬ (f_id r = f_id file ∧ f_user_id r = user_id user))
              (excel_files (backend w))) as Hfiles.
  { by apply list_filter_iff. }
  split; [done|]. split; [|split; [done|]].
  - apply list_filter_iff. intros a.
    split.
    + intros Hnone Heq. apply not_true_iff_false in Hnone. apply Hnone.
      apply existsb_exists. exists file. split; [|by apply N.eqb_eq].
      apply list_elem_of_In, list_elem_of_filter. split; [|done].
      by apply deleted_by_own.
    + intros Hne. apply not_true_iff_false. intros (r & Hr & Heq)%existsb_exists.
      apply list_elem_of_In, list_elem_of_filter in Hr as [[Hid _]%deleted_by_own _].
      apply N.eqb_eq in Heq. congruence.
  - rewrite Hfiles. intros [Hnot _]%list_elem_of_filter. by apply Hnot.
Qed.

(** X17: [handleDelete] reports success whenever neither call returns an
    error, also when the delete matched no row: for a file with no row of
    the signed-in user in [excel_files] (already deleted, or someone
    else's), the table and the analytics rows are left as they are and the
    success toast and [onFileDeleted] still follow. *)
Theorem handleDelete_reports_success_without_a_row user file w :
  outcome w 0 = Succeeds → outcome w 1 = Succeeds →
  (∀ r, r ∈ excel_files (backend w) → f_id r = f_id file → f_user_id r ≠ user_id user) →
  let t := trace (handleDelete (Some user) file) w in
  let b' := backend (world_after (handleDelete (Some user) file) w) in
  excel_files b' = excel_files (backend w)
  ∧ analytics_data b' = analytics_data (backend w)
  ∧ success_toast "File deleted successfully!" ∈ toasts t
  ∧ OnFileDeleted ∈ t.
Proof.
  intros H0 H1 Hnone t b'. subst t b'. unfold world_after, trace.
  rewrite (handleDelete_world user file w H0 H1). simpl.
  assert (∀ r, r ∈ excel_files (backend w) →
               deleted_by (Some (user_id user)) (f_id file) (user_id user) r = false) as Hkept.
  { intros r Hr. apply not_true_iff_false. intros [Hid Hu]%deleted_by_own.
    by apply (Hnone r). }
  assert (filter (λ r, deleted_by (Some (user_id user)) (f_id file) (user_id user) r = true)
            (excel_files (backend w)) = []) as ->.
  { apply filter_none. intros r Hr. rewrite (Hkept r Hr). discriminate. }
  simpl. rewrite !filter_all; [repeat split; set_solver| done |done].
Qed.

End ComposedHandlerFacts.

(** ** More on the chart generator *)

Section MoreChartFacts.
Context `{JsRuntime}.

Lemma chartItem_name_value xAxis0 yAxis0 (row : object) :
  get (chartItem xAxis0 yAxis0 row) "name" = get row xAxis0
  ∧ get (chartItem xAxis0 yAxis0 row) "value" = yValue yAxis0 row.
Proof.
  unfold chartItem, get. rewrite lookup_insert_eq.
  rewrite lookup_insert_ne by done. by rewrite lookup_insert_eq.
Qed.

Lemma generateChartData_elem xAxis0 yAxis0 (data0 : list object) item :
  item ∈ generateChartData xAxis0 yAxis0 data0 →
  keepItem xAxis0 yAxis0 item = true
  ∧ ∃ row, row ∈ data0 ∧ item = chartItem xAxis0 yAxis0 row.
Proof.
  unfold generateChartData. intros [Hkeep Hin]%subseteq_take%list_elem_of_filter.
  split; [done|]. apply list_elem_of_In, in_map_iff in Hin as (row & <- & Hrow).
  exists row. by rewrite list_elem_of_In.
Qed.

(** X18: whatever the two axes are called, every point of the chart data
    comes from a row of the data, has that row's x value as its [name] and
    the row's parsed y (0 when it does not parse or is zero) as its
    [value], a number that is never NaN, and a truthy entry under the x
    axis: the pie chart, which reads [name] and [value], is not affected
    by columns called "name" or "value". *)
Theorem chart_points_carry_name_and_value xAxis0 yAxis0 (data0 : list object) item :
  item ∈ generateChartData xAxis0 yAxis0 data0 →
  ∃ row, row ∈ data0
         ∧ get item "name" = get row xAxis0
         ∧ get item "value" = yValue yAxis0 row
         ∧ (∃ d, get item "value" = VNum (Num d))
         ∧ truthy (get item xAxis0) = true.
Proof.
  intros (Hkeep & row & Hrow & ->)%generateChartData_elem.
  destruct (chartItem_name_value xAxis0 yAxis0 row) as [Hname Hvalue].
  exists row. repeat split; try done.
  - rewrite Hvalue. apply yValue_number.
  - unfold keepItem in Hkeep. by apply andb_true_iff in Hkeep as [? _].
Qed.

(** X19: the chart data is a selection of the rows in their order: the
    points are chart items of rows, in row order, none of them twice unless
    its row is there twice; no rows give no points; and with at most 20
    rows nothing is cut off. *)
Theorem generateChartData_selects_rows_in_order xAxis0 yAxis0 (data0 : list object) :
  generateChartData xAxis0 yAxis0 data0 `sublist_of` map (chartItem xAxis0 yAxis0) data0
  ∧ generateChartData xAxis0 yAxis0 [] = []
  ∧ (length data0 ≤ 20 →
     generateChartData xAxis0 yAxis0 data0
     = filter (λ item, keepItem xAxis0 yAxis0 item = true)
         (map (chartItem xAxis0 yAxis0) data0)).
Proof.
  unfold generateChartData. repeat split.
  - etrans; [apply sublist_take | apply sublist_filter].
  - intros Hlen. apply firstn_all2.
    etrans; [apply length_filter|]. by rewrite length_map.
Qed.

Lemma effect_without_rows (c : Chart) : chart_data c = [] → effect c = c.
Proof. unfold effect. intros ->. simpl. by rewrite !andb_false_r. Qed.

(** X20: the chart is regenerated only when both axes are chosen and there
    are rows. When the sheet shown changes to one without data rows, the
    points of the previous sheet stay, and [downloadChart] exports them
    under the new sheet's name; changing the chart type never touches the
    points. *)
Theorem chart_keeps_its_points_without_rows
    fileName0 (data0 : list object) (evs : list ChartEvent) fileName1 generatedAt t :
  let c := after fileName0 data0 evs in
  let c' := step c (NewProps fileName1 []) in
  chartData c' = chartData c
  ∧ xAxis c' = xAxis c ∧ yAxis c' = yAxis c
  ∧ field "fileName" (downloadChart c' generatedAt).1.2 = Some (CString fileName1)
  ∧ field "data" (downloadChart c' generatedAt).1.2 = Some (CItems (chartData c))
  ∧ chartData (step c (SetSelectedChart t)) = chartData c.
Proof.
  intros c c'. subst c'. simpl. rewrite effect_without_rows by done. done.
Qed.


End MoreChartFacts.

(** ** AnalyticsCharts *)

Section AnalyticsChartsFacts.
Context `{JsRuntime}.

Lemma incrementExisting_None status0 (acc : list StatusCount) :
  incrementExisting status0 acc = None ↔ status0 ∉ map sc_status acc.
Proof.
  induction acc as [|item acc IH]; simpl.
  - split; [intros _; apply not_elem_of_nil | done].
  - destruct (String.eqb_spec (sc_status item) status0) as [->|Hne].
    + split; [done|]. intros Hnot. exfalso. apply Hnot, list_elem_of_here.
    + rewrite fmap_None, IH, not_elem_of_cons. naive_solver.
Qed.

Lemma incrementExisting_Some status0 (acc acc' : list StatusCount) :
  incrementExisting status0 acc = Some acc' →
  ∃ l1 item l2,
    acc = l1 ++ item :: l2 ∧ sc_status item = status0 ∧ status0 ∉ map sc_status l1
    ∧ acc' = l1 ++ {| sc_status := status0; sc_count := S (sc_count item) |} :: l2.
Proof.
  revert acc'. induction acc as [|item acc IH]; intros acc'; simpl; [done|].
  destruct (String.eqb_spec (sc_status item) status0) as [Heq|Hne].
  - intros [= <-]. exists [], item, acc. rewrite Heq. repeat split; try done.
    apply not_elem_of_nil.
  - intros (rest & Hrest & ->)%fmap_Some.
    destruct (IH rest Hrest) as (l1 & it & l2 & -> & Hit & Hl1 & ->).
    exists (item :: l1), it, l2. repeat split; try done.
    simpl. rewrite not_elem_of_cons. done.
Qed.

Lemma filter_snoc_length (fs : list FileRow) f s :
  length (filter (λ f, status f = s) (fs ++ [f]))
  = length (filter (λ f, status f = s) fs) + (if decide (status f = s) then 1 else 0).
Proof.
  rewrite filter_app, length_app. f_equal.
  rewrite filter_cons. by destruct (decide (status f = s)).
Qed.

Lemma status_in (item : StatusCount) (l : list StatusCount) :
  item ∈ l → sc_status item ∈ map sc_status l.
Proof. intros Hin. by apply list_elem_of_In, in_map, list_elem_of_In. Qed.

Lemma countStatus_counted fs acc f :
  counted fs acc → counted (fs ++ [f]) (countStatus acc f).
Proof.
  intros (Hnodup & Hcount & Hall & Hsum). unfold countStatus.
  destruct (incrementExisting (status f) acc) as [acc'|] eqn:Hinc.
  - apply incrementExisting_Some in Hinc as (l1 & item & l2 & -> & Hitem & Hl1 & ->).
    assert (map sc_status (l1 ++ {| sc_status := status f; sc_count := S (sc_count item) |} :: l2)
            = map sc_status (l1 ++ item :: l2)) as Hsame.
    { rewrite !map_app. simpl. by rewrite Hitem. }
    assert (∀ item0, item0 ∈ l2 → sc_status item0 ≠ status f) as Hl2.
    { intros item0 Hin Heq. rewrite map_app in Hnodup. simpl in Hnodup.
      apply NoDup_app in Hnodup as (_ & _ & Hnd). apply NoDup_cons in Hnd as [Hnot _].
      apply Hnot. rewrite Hitem, <- Heq. by apply status_in. }
    split; [by rewrite Hsame|]. split; [|split].
    + intros item0 Hin0. rewrite filter_snoc_length.
      apply elem_of_app in Hin0 as [Hin|Hin].
      * assert (sc_status item0 ≠ status f) as Hne.
        { intros Heq. apply Hl1. rewrite <- Heq. by apply status_in. }
        rewrite decide_False by done. rewrite Nat.add_0_r.
        apply Hcount. apply elem_of_app. by left.
      * apply elem_of_cons in Hin as [->|Hin].
        -- simpl. rewrite decide_True by done.
           destruct (Hcount item) as [-> _];
             [apply elem_of_app; right; apply list_elem_of_here|].
           rewrite Hitem. lia.
        -- rewrite decide_False by (by intros Heq; apply (Hl2 item0 Hin)).
           rewrite Nat.add_0_r.
           apply Hcount. apply elem_of_app. right. by apply list_elem_of_further.
    + intros f' Hf'. rewrite Hsame. apply elem_of_app in Hf' as [Hin|Heq].
      * by apply Hall.
      * apply list_elem_of_singleton in Heq as ->.
        rewrite map_app. apply elem_of_app. right. simpl. rewrite Hitem.
        apply list_elem_of_here.
    + rewrite length_app. simpl. rewrite <- Hsum, !map_app. simpl.
      rewrite !sum_list_with_app. simpl. lia.
  - apply incrementExisting_None in Hinc.
    split; [|split; [|split]].
    + rewrite map_app. simpl. apply NoDup_app. split; [done|]. split.
      * intros s Hs Hin. apply list_elem_of_singleton in Hin as ->. done.
      * apply NoDup_singleton.
    + intros item0 Hin0. rewrite filter_snoc_length.
      apply elem_of_app in Hin0 as [Hin|Heq].
      * assert (status f ≠ sc_status item0) as Hne.
        { intros Heq. apply Hinc. rewrite Heq. by apply status_in. }
        rewrite decide_False by done. rewrite Nat.add_0_r. by apply Hcount.
      * apply list_elem_of_singleton in Heq as ->. simpl.
        rewrite decide_True by done.
        rewrite filter_none; [simpl; lia|]. intros f' Hf' Heq. apply Hinc.
        rewrite <- Heq. by apply Hall.
    + intros f' Hf'. rewrite map_app. apply elem_of_app.
      apply elem_of_app in Hf' as [Hin|Heq]; [left; by apply Hall | right].
      apply list_elem_of_singleton in Heq as ->. simpl. apply list_elem_of_here.
    + rewrite length_app, map_app, sum_list_with_app. simpl. lia.
Qed.

Lemma statusData_counted files : counted files (statusData files).
Proof.
  unfold statusData. induction files as [|f files IH] using rev_ind.
  - split; [apply NoDup_nil_2|]. split; [by intros item ?%elem_of_nil|].
    split; [by intros f ?%elem_of_nil | done].
  - rewrite foldl_app. simpl. by apply countStatus_counted.
Qed.

(** X22: [statusData] has one entry per status that occurs among the
    files and no other entry; the count of an entry is the number of
    files of its status, never 0; the counts add up to the number of
    files. No files give no entries. *)
Theorem statusData_counts_files_by_status (files : list FileRow) :
  NoDup (map sc_status (statusData files))
  ∧ (∀ item, item ∈ statusData files →
       sc_count item = length (filter (λ f, status f = sc_status item) files)
       ∧ 0 < sc_count item)
  ∧ (∀ f, f ∈ files → status f ∈ map sc_status (statusData files))
  ∧ sum_list (map sc_count (statusData files)) = length files
  ∧ statusData [] = [].
Proof. destruct (statusData_counted files) as (? & ? & ? & ?). done. Qed.

Lemma string_length_append (s1 s2 : string) :
  String.length (s1 +:+ s2) = String.length s1 + String.length s2.
Proof.
  induction s1 as [|c s1 IH]; [done|].
  change (String c s1 +:+ s2) with (String c (s1 +:+ s2)). simpl. by rewrite IH.
Qed.

Lemma string_append_empty (s : string) : s +:+ "" = s.
Proof.
  induction s as [|c s IH]; [done|].
  change (String c s +:+ "") with (String c (s +:+ "")). by rewrite IH.
Qed.

Lemma substring_0_length n : ∀ s,
  String.length (String.substring 0 n s) = min n (String.length s).
Proof.
  induction n as [|n IH]; intros [|c s]; simpl; try done. by rewrite IH.
Qed.

Lemma substring_0_all n : ∀ s, String.length s ≤ n → String.substring 0 n s = s.
Proof.
  induction n as [|n IH]; intros [|c s]; simpl; intros Hlen; try done; [lia|].
  rewrite IH; [done | lia].
Qed.

Lemma shortName_facts (s : string) :
  String.length (shortName s) ≤ 18
  ∧ (String.length s ≤ 15 → shortName s = s)
  ∧ (15 < String.length s →
     shortName s = String.substring 0 15 s +:+ "..." ∧ String.length (shortName s) = 18).
Proof.
  unfold shortName. destruct (Nat.ltb_spec 15 (String.length s)) as [Hlong|Hshort].
  - rewrite string_length_append, substring_0_length, Nat.min_l by lia.
    change (String.length "...") with 3.
    split; [lia|]. split; [intros; exfalso; lia | done].
  - rewrite string_length_append, substring_0_length, Nat.min_r by lia.
    change (String.length "") with 0.
    split; [lia|]. split; [|intros; exfalso; lia].
    intros _. rewrite substring_0_all by done. apply string_append_empty.
Qed.

Lemma find_fileSizeData {MB} (formatFileSize : N → MB) (files : list FileRow) label :
  find (λ d, String.eqb (fs_name d) label) (fileSizeData formatFileSize files)
  = (λ file, {| fs_name := shortName (original_name file);
                fs_size := formatFileSize (file_size file);
                fullName := original_name file |})
    <$> find (λ f, String.eqb (shortName (original_name f)) label) files.
Proof.
  unfold fileSizeData. induction files as [|f files IH]; simpl; [done|].
  by destruct (String.eqb _ label).
Qed.

Lemma find_first_of_its_name (files : list FileRow) f :
  NoDup (map (λ f, shortName (original_name f)) files) → f ∈ files →
  find (λ f', String.eqb (shortName (original_name f')) (shortName (original_name f))) files
  = Some f.
Proof.
  induction files as [|f0 files IH]; intros Hnd Hin; [by apply elem_of_nil in Hin|].
  simpl in Hnd |- *. apply NoDup_cons in Hnd as [Hnot Hnd].
  apply elem_of_cons in Hin as [->|Hin].
  - by rewrite String.eqb_refl.
  - destruct (String.eqb_spec (shortName (original_name f0)) (shortName (original_name f)))
      as [Heq|_]; [|by apply IH].
    exfalso. apply Hnot. rewrite Heq.
    apply list_elem_of_In, (in_map (λ f, shortName (original_name f))), list_elem_of_In, Hin.
Qed.

(** X23: a bar of the file-size chart is labelled with the file's name cut
    to its first 15 characters, followed by "..." when something was cut
    (so never more than 18 characters, and the whole name when it has at
    most 15); it keeps the full name beside it. The tooltip shows the full
    name of the first file whose label is the hovered one: the file's own
    full name when no two labels are equal, the label itself when no bar
    has it. *)
Theorem fileSizeData_labels_and_tooltip {MB} (formatFileSize : N → MB) (files : list FileRow) :
  (∀ s, String.length (shortName s) ≤ 18
        ∧ (String.length s ≤ 15 → shortName s = s)
        ∧ (15 < String.length s →
           shortName s = String.substring 0 15 s +:+ "..."
           ∧ String.length (shortName s) = 18))
  ∧ map fullName (fileSizeData formatFileSize files) = map original_name files
  ∧ map fs_name (fileSizeData formatFileSize files)
    = map (λ f, shortName (original_name f)) files
  ∧ (∀ label,
       labelFormatter (fileSizeData formatFileSize files) label
       = match find (λ f, String.eqb (shortName (original_name f)) label) files with
         | Some f => original_name f
         | None => label
         end)
  ∧ (NoDup (map (λ f, shortName (original_name f)) files) →
     ∀ f, f ∈ files →
          labelFormatter (fileSizeData formatFileSize files) (shortName (original_name f))
          = original_name f).
Proof.
  assert (∀ label,
            labelFormatter (fileSizeData formatFileSize files) label
            = match find (λ f, String.eqb (shortName (original_name f)) label) files with
              | Some f => original_name f
              | None => label
              end) as Hlabel.
  { intros label. unfold labelFormatter. rewrite find_fileSizeData.
    by destruct (find _ files). }
  split; [apply shortName_facts|]. split; [|split; [|split; [done|]]].
  - unfold fileSizeData. rewrite map_map. done.
  - unfold fileSizeData. rewrite map_map. done.
  - intros Hnd f Hf. rewrite Hlabel. by rewrite find_first_of_its_name.
Qed.

End AnalyticsChartsFacts.

(** ** Concrete runs, on the integer runtime *)

Section Examples.
#[local] Existing Instance IntRuntime.runtime.

Example formatRow_blanks_zero_and_false :
  let row := formatRow [Some (VStr "n"); Some (VStr "ok"); None; Some (VStr "s")]
               [Some (VNum (Num 0%Z)); Some (VBool false); Some (VStr "skipped");
                Some (VStr "x")] in
  row !! "n" = Some (VStr "") ∧ row !! "ok" = Some (VStr "")
  ∧ row !! "s" = Some (VStr "x") ∧ row !! "skipped" = None.
Proof. repeat split; vm_compute; reflexivity. Qed.

(** A header cell ["__proto__"] leaves no entry in the row. *)
Example formatRow_proto_header :
  formatRow [Some (VStr "__proto__"); Some (VStr "b")] [Some (VStr "x"); Some (VStr "y")]
  = {[ "b" := VStr "y" ]}.
Proof. reflexivity. Qed.

(** C8, as the claim states it, fails: under two header cells of the same
    name the formatted row keeps the cell of the later one, so the falsy
    cell under the earlier one is not replaced by the empty string. *)
Lemma formatRow_repeated_header_not_blanked :
  let headers := [Some (VStr "a"); Some (VStr "a")] in
  let row := [Some (VNum (Num 0%Z)); Some (VNum (Num 5%Z))] in
  headers !! 0 = Some (Some (VStr "a"))
  ∧ truthy (index row 0) = false
  ∧ formatRow headers row = {[ "a" := VNum (Num 5%Z) ]}
  ∧ formatRow headers row !! "a" ≠ Some (VStr "").
Proof.
  assert (formatRow [Some (VStr "a"); Some (VStr "a")]
            [Some (VNum (Num 0%Z)); Some (VNum (Num 5%Z))]
          = {[ "a" := VNum (Num 5%Z) ]}) as E by reflexivity.
  cbv zeta. rewrite E. repeat split. by rewrite lookup_singleton_eq.
Qed.

Example parseSheets_two_sheets :
  map (λ s, (name s, columns s, length (data s))) (parseSheets two_sheets)
  = [("A", [VStr "x"], 1); ("B", [VStr "y"], 1)].
Proof. reflexivity. Qed.

Example handleDelete_after_a_storage_failure :
  let run := handleDelete (Some alice) report in
  let w := {| backend := with_report; faults := [Rejects denied] |} in
  calls (trace run w) = [StorageRemove ["1/7-a.csv"]]
  ∧ excel_files (backend (world_after run w)) = [report]
  ∧ toasts (trace run w)
    = [ {| title := "Delete failed"; description := "permission denied";
           variant := destructive |} ].
Proof. repeat split; vm_compute; reflexivity. Qed.

Example handleDelete_after_a_row_failure :
  let run := handleDelete (Some alice) report in
  let w := {| backend := with_report; faults := [Succeeds; ErrorResult denied] |} in
  calls (trace run w) = [StorageRemove ["1/7-a.csv"]; DeleteExcelFile 5%N 1%N]
  ∧ excel_files (backend (world_after run w)) = [report]
  ∧ objects (backend (world_after run w)) !! "1/7-a.csv" = None.
Proof. repeat split; vm_compute; reflexivity. Qed.

Example downloadChart_after_selecting :
  let c := after "Sheet1" [ {[ "city" := VStr "Paris"; "sales" := VStr "12" ]} ]
             [SetXAxis "city"; SetYAxis "sales"; SetSelectedChart "pie"] in
  (downloadChart c "2025-07-02T17:11:43.000Z").1.1 = "Sheet1_chart_pie.json"
  ∧ map (λ item, (get item "city", get item "sales", get item "name", get item "value"))
      (chartData c)
    = [(VStr "Paris", VNum (Num 12%Z), VStr "Paris", VNum (Num 12%Z))].
Proof. repeat split; vm_compute; reflexivity. Qed.

(** C6, as the claim states it, fails: with the backend answering every
    call, one dropped CSV file makes [onDrop] send two backend calls, the
    storage upload and the insert into [excel_files]. *)
Lemma onDrop_accepted_file_two_calls :
  includes validTypes (file_type csv) = true
  ∧ length (calls (trace (onDrop (Some alice) 7%N [csv]) (calm empty_backend))) = 2.
Proof. split; vm_compute; reflexivity. Qed.

Lemma onDrop_uploads_once_then_inserts_witness :
  includes validTypes (file_type csv) = true
  ∧ 1 ≤ length (calls (trace (onDrop (Some alice) 7%N [csv]) (calm empty_backend))) ≤ 2.
Proof.
  split; [reflexivity|].
  apply (onDrop_uploads_once_then_inserts alice 7%N csv [] (calm empty_backend)).
  reflexivity.
Defined.

(** C2: the code does not do what the claim says. With the file in place
    and the backend answering every call, a second [saveAnalyticsData] for
    the same file and sheet adds a second row: the payload carries no [id],
    so the upsert, which resolves conflicts on the primary key only, finds
    nothing to replace. Both rows have the same ([file_id], [sheet_name]). *)
Theorem saveAnalyticsData_twice_leaves_two_rows :
  let save := saveAnalyticsData (Some alice) 5%N (parseSheets padded) in
  let w1 := world_after save (calm with_report) in
  let w2 := world_after save w1 in
  map (λ a, (a_file_id a, a_sheet_name a)) (analytics_data (backend w1))
  = [(5%N, "Sheet1")]
  ∧ map (λ a, (a_file_id a, a_sheet_name a)) (analytics_data (backend w2))
    = [(5%N, "Sheet1"); (5%N, "Sheet1")]
  ∧ map a_id (analytics_data (backend w2)) = [100%N; 101%N]
  ∧ failures (trace save w1) = [].
Proof. repeat split; vm_compute; reflexivity. Qed.

(** C3, as the claim states it, fails: for a workbook of two sheets
    [saveAnalyticsData] has two requests in flight at once. *)
Lemma saveAnalyticsData_two_requests_in_flight :
  let t := trace (saveAnalyticsData (Some alice) 5%N (parseSheets two_sheets))
             (calm with_report) in
  max_in_flight t = 2 ∧ ¬ max_in_flight t ≤ 1.
Proof.
  assert (max_in_flight
            (trace (saveAnalyticsData (Some alice) 5%N (parseSheets two_sheets))
               (calm with_report)) = 2) as E by (vm_compute; reflexivity).
  cbv zeta. rewrite E. split; [done | lia].
Qed.

(** C4, as the claim states it, fails: an upsert of [saveAnalyticsData]
    that comes back with an error is followed by no toast at all. *)
Lemma saveAnalyticsData_failure_without_toast :
  let t := trace (saveAnalyticsData (Some alice) 5%N (parseSheets padded))
             {| backend := with_report; faults := [ErrorResult denied] |} in
  failures t = [denied] ∧ toasts t = [] ∧ ¬ notified t.
Proof.
  assert (toasts (trace (saveAnalyticsData (Some alice) 5%N (parseSheets padded))
                    {| backend := with_report; faults := [ErrorResult denied] |}) = [])
    as E by (vm_compute; reflexivity).
  cbv zeta. split; [vm_compute; reflexivity|]. split; [exact E|].
  intros (x & Hx & _). rewrite E in Hx. by apply elem_of_nil in Hx.
Qed.

(** C5, as the claim states it, fails: a header " a " is stored as it
    stands, with its spaces, and not as the trimmed name "a". *)
Lemma saveAnalyticsData_columns_not_trimmed :
  let t := trace (saveAnalyticsData (Some alice) 5%N (parseSheets padded))
             (calm with_report) in
  sent_columns t = [[VStr " a "]]
  ∧ trimmedHeaderNames [Some (VStr " a ")] = [VStr "a"]
  ∧ sent_columns t ≠ [trimmedHeaderNames [Some (VStr " a ")]].
Proof.
  assert (sent_columns (trace (saveAnalyticsData (Some alice) 5%N (parseSheets padded))
                          (calm with_report)) = [[VStr " a "]]) as E
    by reflexivity.
  assert (trimmedHeaderNames [Some (VStr " a ")] = [VStr "a"]) as E' by reflexivity.
  cbv zeta. rewrite E, E'. split; [done|]. split; [done|].
  intros Heq. discriminate Heq.
Qed.

Lemma analytics_rows_hold_the_sheet_summary_witness :
  (λ _ : string, Some padded) "PK" = Some padded
  ∧ file_exists 5%N with_report = true
  ∧ map stored
      (analytics_data
         (backend
            (world_after (saveAnalyticsData (Some alice) 5%N (parseSheets padded))
               {| backend := with_report; faults := [] |})))
    = map stored (analytics_data with_report) ++ map submitted (summaries alice 5%N padded).
Proof.
  split; [reflexivity|]. split; [reflexivity|].
  apply (analytics_rows_hold_the_sheet_summary
           (λ _ : string, Some padded) alice 5%N "PK" padded with_report);
    reflexivity.
Defined.

(** C9: the code does not do what the claim says when an axis is a column
    called [name] or [value], the two fixed properties of a chart item.
    With y on a column called "name" the parsed number is overwritten by
    the x value: a row with a truthy x and a numeric y is dropped by the
    [isNaN] test, and a row that is kept carries a string as its y. With x
    on a column called "value" a row whose x cell is empty is kept. *)
Theorem generateChartData_axis_named_name_or_value :
  generateChartData "city" "name" [ {[ "city" := VStr "Paris"; "name" := VStr "5" ]} ] = []
  ∧ map (λ item, get item "name")
      (generateChartData "code" "name" [ {[ "code" := VStr "12"; "name" := VStr "7" ]} ])
    = [VStr "12"]
  ∧ truthy (get {[ "value" := VStr ""; "count" := VNum (Num 3%Z) ]} "value") = false
  ∧ length (generateChartData "value" "count"
              [ {[ "value" := VStr ""; "count" := VNum (Num 3%Z) ]} ]) = 1.
Proof. repeat split; vm_compute; reflexivity. Qed.

Lemma generateChartData_without_collision_witness :
  "city" ≠ "sales" ∧ "city" ≠ "value" ∧ "sales" ≠ "name"
  ∧ length (generateChartData "city" "sales"
              [ {[ "city" := VStr "Paris"; "sales" := VStr "abc" ]};
                {[ "city" := VStr ""; "sales" := VNum (Num 4%Z) ]} ]) ≤ 20.
Proof.
  split; [done|]. split; [done|]. split; [done|].
  apply (generateChartData_without_collision "city" "sales"); done.
Defined.

End Examples.

(** ** More concrete runs *)

Section MoreExamples.
#[local] Existing Instance IntRuntime.runtime.

Example statusData_of_three_files :
  statusData [january; february; report]
  = [ {| sc_status := "uploaded"; sc_count := 2 |};
      {| sc_status := "processing"; sc_count := 1 |} ].
Proof. reflexivity. Qed.

(** Two bars with one label: the tooltip of either shows the first file. *)
Example labelFormatter_with_equal_labels :
  let bars := fileSizeData (λ bytes, bytes) [january; february] in
  map fs_name bars = ["quarterly-repor..."; "quarterly-repor..."]
  ∧ labelFormatter bars "quarterly-repor..." = "quarterly-report-january.xlsx".
Proof. split; reflexivity. Qed.

Example saveAnalyticsData_with_a_rejection :
  let t := trace (saveAnalyticsData (Some alice) 5%N (parseSheets two_sheets))
             {| backend := with_report; faults := [ErrorResult denied; Rejects denied] |} in
  console_errors t = [denied] ∧ length (failures t) = 2.
Proof. split; reflexivity. Qed.

Lemma preview_cell_shows_the_stored_value_witness :
  padded_sheet ∈ parseSheets padded
  ∧ VStr " a " ∈ columns padded_sheet
  ∧ padded_row ∈ data padded_sheet
  ∧ truthy (VStr " a ") = true.
Proof.
  assert (parseSheets padded = [padded_sheet]) as Hparsed by reflexivity.
  assert (padded_sheet ∈ parseSheets padded) as Hsheet
    by (rewrite Hparsed; apply list_elem_of_here).
  assert (VStr " a " ∈ columns padded_sheet) as Hcol by apply list_elem_of_here.
  assert (padded_row ∈ data padded_sheet) as Hrow by apply list_elem_of_here.
  split; [done|]. split; [done|]. split; [done|].
  apply (preview_cell_shows_the_stored_value padded padded_sheet (VStr " a ") padded_row
           Hsheet Hcol Hrow).
Defined.

Lemma onDrop_succeeds_iff_both_calls_do_witness :
  includes validTypes (file_type csv) = true
  ∧ (OnUploadComplete ∈ trace (onDrop (Some alice) 7%N [csv]) (calm empty_backend)
     ↔ failures (trace (onDrop (Some alice) 7%N [csv]) (calm empty_backend)) = []).
Proof.
  split; [reflexivity|].
  apply (onDrop_succeeds_iff_both_calls_do alice 7%N csv [] (calm empty_backend)).
  reflexivity.
Defined.

Lemma onDrop_leaves_the_object_when_the_insert_fails_witness :
  includes validTypes (file_type csv) = true
  ∧ upload_succeeds insert_denied "1/7-a.csv" = true
  ∧ outcome insert_denied 1 ≠ Succeeds
  ∧ objects (backend (world_after (onDrop (Some alice) 7%N [csv]) insert_denied))
      !! "1/7-a.csv" = Some "x,y"
  ∧ excel_files (backend (world_after (onDrop (Some alice) 7%N [csv]) insert_denied)) = [].
Proof.
  assert (outcome insert_denied 1 ≠ Succeeds) as Hins by done.
  split; [reflexivity|]. split; [reflexivity|]. split; [exact Hins|].
  destruct (onDrop_leaves_the_object_when_the_insert_fails alice 7%N csv [] insert_denied
              eq_refl eq_refl Hins) as (Hobj & Hrows & _).
  split; [exact Hobj | exact Hrows].
Defined.


Lemma upload_then_download_returns_the_content_witness :
  includes validTypes (file_type csv) = true
  ∧ upload_succeeds (calm empty_backend) "1/7-a.csv" = true
  ∧ outcome (calm empty_backend) 1 = Succeeds
  ∧ outcome (calm empty_backend) 2 = Succeeds
  ∧ trace (handleDownload (Some alice) (uploaded_row alice 7%N csv empty_backend))
      (world_after (onDrop (Some alice) 7%N [csv]) (calm empty_backend))
    = [ Issue (StorageDownload "1/7-a.csv"); Settle (StorageDownload "1/7-a.csv") None;
        SaveLink "a.csv" "x,y";
        ToastShown (success_toast "File downloaded successfully!") ].
Proof.
  split; [reflexivity|]. split; [reflexivity|]. split; [reflexivity|]. split; [reflexivity|].
  apply (upload_then_download_returns_the_content (λ _, None) alice 7%N csv []
           (calm empty_backend)); reflexivity.
Defined.

Lemma report_in_shape : app_row report.
Proof. split; reflexivity. Qed.

Lemma handlers_keep_the_rows_in_shape_witness :
  Forall app_row (excel_files (backend (calm with_report)))
  ∧ Forall app_row
      (excel_files
         (backend (world_after (onDrop (Some alice) 7%N [csv]) (calm with_report)))).
Proof.
  assert (Forall app_row (excel_files (backend (calm with_report)))) as Hrows
    by (apply Forall_singleton, report_in_shape).
  split; [exact Hrows|].
  apply (handlers_keep_the_rows_in_shape (calm with_report) Hrows).
Defined.

Lemma rows_in_shape_are_read_alike_witness :
  app_row report ∧ f_user_id report = user_id alice
  ∧ calls (trace (loadFileData (λ _, None) (Some alice) (filename report)) (calm with_report))
    = [StorageDownload (file_path report)].
Proof.
  split; [exact report_in_shape|]. split; [reflexivity|].
  apply (rows_in_shape_are_read_alike (λ _, None) alice report (calm with_report)
           report_in_shape eq_refl).
Defined.

Lemma handleDelete_removes_the_row_and_its_analytics_witness :
  outcome (calm with_report) 0 = Succeeds ∧ outcome (calm with_report) 1 = Succeeds
  ∧ report ∈ excel_files (backend (calm with_report))
  ∧ f_user_id report = user_id alice
  ∧ app_row report
  ∧ report ∉ excel_files
               (backend (world_after (handleDelete (Some alice) report) (calm with_report))).
Proof.
  assert (report ∈ excel_files (backend (calm with_report))) as Hin
    by apply list_elem_of_here.
  split; [reflexivity|]. split; [reflexivity|]. split; [exact Hin|]. split; [reflexivity|].
  split; [exact report_in_shape|].
  apply (handleDelete_removes_the_row_and_its_analytics alice report (calm with_report)
           eq_refl eq_refl Hin eq_refl report_in_shape).
Defined.

Lemma handleDelete_reports_success_without_a_row_witness :
  outcome (calm with_report) 0 = Succeeds ∧ outcome (calm with_report) 1 = Succeeds
  ∧ (∀ r, r ∈ excel_files (backend (calm with_report)) →
          f_id r = f_id report → f_user_id r ≠ user_id bob)
  ∧ excel_files (backend (world_after (handleDelete (Some bob) report) (calm with_report)))
    = excel_files (backend (calm with_report)).
Proof.
  assert (∀ r, r ∈ excel_files (backend (calm with_report)) →
               f_id r = f_id report → f_user_id r ≠ user_id bob) as Hnone.
  { intros r Hr _. apply list_elem_of_singleton in Hr. subst r. done. }
  split; [reflexivity|]. split; [reflexivity|]. split; [exact Hnone|].
  apply (handleDelete_reports_success_without_a_row bob report (calm with_report)
           eq_refl eq_refl Hnone).
Defined.

Lemma chart_points_carry_name_and_value_witness :
  chartItem "city" "sales" paris ∈ generateChartData "city" "sales" [paris]
  ∧ ∃ row, row ∈ [paris]
           ∧ get (chartItem "city" "sales" paris) "name" = get row "city"
           ∧ get (chartItem "city" "sales" paris) "value" = yValue "sales" row
           ∧ (∃ d, get (chartItem "city" "sales" paris) "value" = VNum (Num d))
           ∧ truthy (get (chartItem "city" "sales" paris) "city") = true.
Proof.
  assert (generateChartData "city" "sales" [paris] = [chartItem "city" "sales" paris])
    as Hdata by reflexivity.
  assert (chartItem "city" "sales" paris ∈ generateChartData "city" "sales" [paris]) as Hin
    by (rewrite Hdata; apply list_elem_of_here).
  split; [exact Hin|].
  apply (chart_points_carry_name_and_value "city" "sales" [paris] _ Hin).
Defined.


End MoreExamples.
